(** * us-econ-bot: a shallow embedding of [main.py]

    The program polls a statistics provider for five economic series,
    renders a briefing and posts it to a chat, behind a weekday 07:30
    (UTC+9) gate.  This development embeds the program function by
    function and proves the properties stated about it.

    Conventions of the embedding.
    - A Python [str] is a [string] (a byte sequence); the literals of the
      source are kept verbatim.  The library routines that classify
      characters ([float], [strptime]) are modelled on ASCII input, which
      is what the provider's JSON carries in the fields they read.
    - [None] is [None]; a value that may be [None] is an [option].
    - A Python [float] is an IEEE-754 binary64 number, [spec_float] with
      precision 53 and maximal exponent 1024.
    - A [dict] is an association list in insertion order.
    - Effects (clock reads, HTTP calls, [print], [sleep]) run in a state
      and exception monad over a description of what the outside world
      answers.  An [oracle] is a world whose statistics provider keeps
      to its schema ([observations] is a list of objects); a [provider]
      is any world: the value under [observations] may have any JSON
      shape.  A statement over an [oracle] is about the worlds of the
      schema; a statement over a [provider] is about all of them.
    - The two fields the program reads from an observation object,
      [value] and [date], are strings or null, as the provider's schema
      has them. *)

From Stdlib Require Import ZArith List String Ascii Bool Lia.
From Stdlib Require Import DecimalString.
From Stdlib Require Import Floats.SpecFloat.
Import ListNotations.

Local Open Scope string_scope.
Local Open Scope Z_scope.

(* ===================================================================== *)
(** ** Strings and numbers *)
(* ===================================================================== *)

Module Text.

(** [str(n)] for an integer. *)
Definition of_Z (n : Z) : string :=
  NilZero.string_of_int (Z.to_int n).

(** [%02d]-style zero padding, as [strftime] does for [%m %d %H %M %S]. *)
Definition pad2 (n : Z) : string :=
  if (0 <=? n) && (n <? 10) then "0" ++ of_Z n else of_Z n.

(** Python truthiness of a [str]-or-[None] value. *)
Definition truthy (v : option string) : bool :=
  match v with
  | None => false
  | Some EmptyString => false
  | Some (String _ _) => true
  end.

(** [v == lit] for a [str]-or-[None] value. *)
Definition is_str (v : option string) (lit : string) : bool :=
  match v with
  | None => false
  | Some s => String.eqb s lit
  end.

(** What an f-string prints for a [str]-or-[None] value. *)
Definition show (v : option string) : string :=
  match v with
  | None => "None"
  | Some s => s
  end.

End Text.

(* ===================================================================== *)
(** ** Civil time *)
(* ===================================================================== *)

Module Time.

(** [KST = timezone(timedelta(hours=9))], as an offset in seconds. *)
Definition KST : Z := 9 * 3600.

(** An aware [datetime]: the seconds elapsed on the zone's own civil
    calendar since 1970-01-01 00:00:00. *)
Record datetime : Set := mk_datetime { civil : Z }.

(** [datetime.fromtimestamp(t, tz)] for a whole POSIX second [t]. *)
Definition fromtimestamp (t tz : Z) : datetime := mk_datetime (t + tz).

Definition days (d : datetime) : Z := civil d / 86400.
Definition second_of_day (d : datetime) : Z := civil d mod 86400.

Definition hour (d : datetime) : Z := second_of_day d / 3600.
Definition minute (d : datetime) : Z := (second_of_day d mod 3600) / 60.
Definition second (d : datetime) : Z := second_of_day d mod 60.

(** [datetime.weekday()]: Monday is 0, Sunday is 6.  Day 0 of the civil
    calendar (1970-01-01) was a Thursday. *)
Definition weekday (d : datetime) : Z := (days d + 3) mod 7.

(** Proleptic Gregorian date of a day count (year, month, day). *)
Definition civil_from_days (z0 : Z) : Z * Z * Z :=
  let z := z0 + 719468 in
  let era := z / 146097 in
  let doe := z - era * 146097 in
  let yoe := (doe - doe / 1460 + doe / 36524 - doe / 146096) / 365 in
  let y := yoe + era * 400 in
  let doy := doe - (365 * yoe + yoe / 4 - yoe / 100) in
  let mp := (5 * doy + 2) / 153 in
  let d := doy - (153 * mp + 2) / 5 + 1 in
  let m := if mp <? 10 then mp + 3 else mp - 9 in
  (if m <=? 2 then y + 1 else y, m, d).

Definition year (d : datetime) : Z := fst (fst (civil_from_days (days d))).
Definition month (d : datetime) : Z := snd (fst (civil_from_days (days d))).
Definition day (d : datetime) : Z := snd (civil_from_days (days d)).

(** The [strftime] formats the program uses. *)
Definition strftime_HM (d : datetime) : string :=
  Text.pad2 (hour d) ++ ":" ++ Text.pad2 (minute d).

Definition strftime_HMS (d : datetime) : string :=
  strftime_HM d ++ ":" ++ Text.pad2 (second d).

Definition strftime_Ymd_dash (d : datetime) : string :=
  Text.of_Z (year d) ++ "-" ++ Text.pad2 (month d) ++ "-" ++ Text.pad2 (day d).

Definition strftime_Ymd_korean (d : datetime) : string :=
  Text.of_Z (year d) ++ "년 " ++ Text.pad2 (month d) ++ "월 "
    ++ Text.pad2 (day d) ++ "일".

(** Leap years and month lengths, for [strptime]'s date validation. *)
Definition is_leap (y : Z) : bool :=
  (y mod 4 =? 0) && (negb (y mod 100 =? 0) || (y mod 400 =? 0)).

Definition days_in_month (y m : Z) : Z :=
  if m =? 2 then (if is_leap y then 29 else 28)
  else if (m =? 4) || (m =? 6) || (m =? 9) || (m =? 11) then 30
  else 31.

End Time.

(* ===================================================================== *)
(** ** Python floats *)
(* ===================================================================== *)

Module Float64.

Definition prec : Z := 53.
Definition emax : Z := 1024.

Definition float : Set := spec_float.

(** [x - y], rounded to nearest even. *)
Definition sub (x y : float) : float := SFsub prec emax x y.

(** [x > 0] and [x < 0]; both are false on a NaN. *)
Definition gt0 (x : float) : bool :=
  match SFcompare x (S754_zero false) with
  | Some Gt => true
  | _ => false
  end.

Definition lt0 (x : float) : bool :=
  match SFcompare x (S754_zero false) with
  | Some Lt => true
  | _ => false
  end.

(** The rational a float stands for, as a fraction [(numerator, denominator)];
    [None] for infinities and NaN. *)
Definition to_fraction (x : float) : option (Z * Z) :=
  match x with
  | S754_zero _ => Some (0, 1)
  | S754_finite s m e =>
      let n := if s then Z.neg m else Z.pos m in
      Some (if 0 <=? e then (n * 2 ^ e, 1) else (n, 2 ^ (- e)))
  | _ => None
  end.

(** [x] stands for exactly the rational [p / q] ([q > 0]). *)
Definition denotes (x : float) (p q : Z) : bool :=
  match to_fraction x with
  | Some (n, d) => n * q =? p * d
  | None => false
  end.

(** *** [float(s)] on a string *)

(** The ASCII whitespace [float] strips: tab to carriage return, and the
    space. *)
Definition is_space (c : ascii) : bool :=
  let n := Z.of_nat (nat_of_ascii c) in
  ((9 <=? n) && (n <=? 13)) || (n =? 32).

Definition digit_of (c : ascii) : option Z :=
  let n := Z.of_nat (nat_of_ascii c) in
  if (48 <=? n) && (n <=? 57) then Some (n - 48) else None.

Definition lower (c : ascii) : ascii :=
  let n := nat_of_ascii c in
  if (65 <=? n)%nat && (n <=? 90)%nat then ascii_of_nat (n + 32) else c.

Fixpoint lstrip (cs : list ascii) : list ascii :=
  match cs with
  | c :: rest => if is_space c then lstrip rest else cs
  | [] => []
  end.

Definition strip (cs : list ascii) : list ascii :=
  rev (lstrip (rev (lstrip cs))).

(** The rest of a [digitpart] after its first digit: digits, each
    optionally preceded by one underscore.  [v] is the value read so
    far and [n] the number of digits. *)
Fixpoint digits_tail (cs : list ascii) (v n : Z) : Z * Z * list ascii :=
  match cs with
  | c :: rest =>
      match digit_of c with
      | Some d => digits_tail rest (10 * v + d) (n + 1)
      | None =>
          if Ascii.eqb c "_" then
            match rest with
            | c' :: rest' =>
                match digit_of c' with
                | Some d => digits_tail rest' (10 * v + d) (n + 1)
                | None => (v, n, cs)
                end
            | [] => (v, n, cs)
            end
          else (v, n, cs)
      end
  | [] => (v, n, cs)
  end.

(** [digitpart ::= digit (["_"] digit)*], continuing the value [v]. *)
Definition digitpart (cs : list ascii) (v : Z) : option (Z * Z * list ascii) :=
  match cs with
  | c :: rest =>
      match digit_of c with
      | Some d => Some (digits_tail rest (10 * v + d) 1)
      | None => None
      end
  | [] => None
  end.

(** [number ::= [digitpart] "." digitpart | digitpart ["."]]; the result
    is the integer spelled by all the digits, the number of fraction
    digits, and the unread rest. *)
Definition number (cs : list ascii) : option (Z * Z * list ascii) :=
  match digitpart cs 0 with
  | Some (v, _, rest) =>
      match rest with
      | "."%char :: rest' =>
          match digitpart rest' v with
          | Some r => Some r
          | None => Some (v, 0, rest')
          end
      | _ => Some (v, 0, rest)
      end
  | None =>
      match cs with
      | "."%char :: rest' => digitpart rest' 0
      | _ => None
      end
  end.

Definition sign (cs : list ascii) : bool * list ascii :=
  match cs with
  | "-"%char :: rest => (true, rest)
  | "+"%char :: rest => (false, rest)
  | _ => (false, cs)
  end.

(** [exponent ::= ("e" | "E") [sign] digitpart]; an absent exponent
    is 0, a malformed one leaves the text unread. *)
Definition exponent (cs : list ascii) : Z * list ascii :=
  match cs with
  | c :: rest =>
      if Ascii.eqb (lower c) "e" then
        let (neg, rest') := sign rest in
        match digitpart rest' 0 with
        | Some (v, _, rest'') => (if neg then - v else v, rest'')
        | None => (0, cs)
        end
      else (0, cs)
  | [] => (0, cs)
  end.

(** The float nearest to [(-1)^s * d * 10^e] (ties to even, overflow to
    an infinity), which is what Python's correctly rounded conversion
    returns. *)
Definition of_decimal (s : bool) (d e : Z) : float :=
  match d with
  | Z.pos m =>
      let r :=
        if 0 <=? e
        then binary_normalize prec emax (Z.pos m * 10 ^ e) 0 false
        else SFdiv prec emax (S754_finite false m 0)
               (S754_finite false (Z.to_pos (10 ^ (- e))) 0) in
      if s then SFopp r else r
  | _ => S754_zero s
  end.

Definition lower_string (cs : list ascii) : string :=
  string_of_list_ascii (map lower cs).

(** [float(s)]: [None] stands for [ValueError]. *)
Definition of_string (s : string) : option float :=
  let (neg, body) := sign (strip (list_ascii_of_string s)) in
  let word := lower_string body in
  if String.eqb word "inf" || String.eqb word "infinity"
  then Some (S754_infinity neg)
  else if String.eqb word "nan" then Some S754_nan
  else
    match number body with
    | Some (d, nfrac, rest) =>
        match exponent rest with
        | (e, []) => Some (of_decimal neg d (e - nfrac))
        | _ => None
        end
    | None => None
    end.

(** *** [format(x, ".2f")] *)

(** [x * 100] rounded to the nearest integer, ties to even, for a
    positive finite [m * 2^e]. *)
Definition hundredths (m : positive) (e : Z) : Z :=
  if 0 <=? e then 100 * Z.pos m * 2 ^ e
  else
    let den := 2 ^ (- e) in
    let q := (100 * Z.pos m) / den in
    let r := (100 * Z.pos m) mod den in
    match 2 * r ?= den with
    | Gt => q + 1
    | Eq => if Z.even q then q else q + 1
    | Lt => q
    end.

Definition format_2f (x : float) : string :=
  match x with
  | S754_nan => "nan"
  | S754_infinity s => if s then "-inf" else "inf"
  | S754_zero s => if s then "-0.00" else "0.00"
  | S754_finite s m e =>
      let h := hundredths m e in
      (if s then "-" else "") ++ Text.of_Z (h / 100) ++ "." ++ Text.pad2 (h mod 100)
  end.

End Float64.

(* ===================================================================== *)
(** ** [datetime.strptime(s, '%Y-%m-%d')] *)
(* ===================================================================== *)

Module Strptime.

Import Float64.

(** One character in the digit range [lo..hi]. *)
Definition digit_in (lo hi : Z) (c : ascii) : option Z :=
  match digit_of c with
  | Some d => if (lo <=? d) && (d <=? hi) then Some d else None
  | None => None
  end.

(** Two characters, the first in [a..b] and the second in [c..d]; the
    value they spell and the unread rest. *)
Definition two (a b c d : Z) (cs : list ascii) : list (Z * list ascii) :=
  match cs with
  | x :: y :: rest =>
      match digit_in a b x, digit_in c d y with
      | Some p, Some q => [(10 * p + q, rest)]
      | _, _ => []
      end
  | _ => []
  end.

Definition one (a b : Z) (cs : list ascii) : list (Z * list ascii) :=
  match cs with
  | x :: rest =>
      match digit_in a b x with
      | Some p => [(p, rest)]
      | None => []
      end
  | [] => []
  end.

(** [%Y] is the group [\d\d\d\d]. *)
Definition field_Y (cs : list ascii) : list (Z * list ascii) :=
  match two 0 9 0 9 cs with
  | [(hi, rest)] =>
      match two 0 9 0 9 rest with
      | [(lo, rest')] => [(100 * hi + lo, rest')]
      | _ => []
      end
  | _ => []
  end.

(** [%m] is the group [1[0-2]|0[1-9]|[1-9]], alternatives in order. *)
Definition field_m (cs : list ascii) : list (Z * list ascii) :=
  two 1 1 0 2 cs ++ two 0 0 1 9 cs ++ one 1 9 cs.

(** [%d] is the group [3[0-1]|[1-2]\d|0[1-9]|[1-9]| [1-9]]. *)
Definition field_d (cs : list ascii) : list (Z * list ascii) :=
  two 3 3 0 1 cs ++ two 1 2 0 9 cs ++ two 0 0 1 9 cs ++ one 1 9 cs
    ++ match cs with
       | " "%char :: rest => one 1 9 rest
       | _ => []
       end.

Definition literal (c : ascii) (cs : list ascii) : list (list ascii) :=
  match cs with
  | x :: rest => if Ascii.eqb x c then [rest] else []
  | [] => []
  end.

(** The first way, in backtracking order, in which the pattern
    [Y-m-d] matches a prefix of the text. *)
Definition regex_match (cs : list ascii) : option (Z * Z * Z * list ascii) :=
  hd_error
    (flat_map (fun '(y, r1) =>
       flat_map (fun r2 =>
         flat_map (fun '(m, r3) =>
           flat_map (fun r4 =>
             map (fun '(d, r5) => (y, m, d, r5)) (field_d r4))
             (literal "-" r3))
           (field_m r2))
         (literal "-" r1))
       (field_Y cs)).

(** [None] stands for [ValueError]: no match, unconverted data left, or
    a day the calendar does not have. *)
Definition strptime_Ymd (s : string) : option (Z * Z * Z) :=
  match regex_match (list_ascii_of_string s) with
  | Some (y, m, d, []) =>
      if (1 <=? y) && (d <=? Time.days_in_month y m) then Some (y, m, d) else None
  | _ => None
  end.

(** [date_obj.strftime('%m/%d')]. *)
Definition strftime_md (date : Z * Z * Z) : string :=
  let '(_, m, d) := date in Text.pad2 m ++ "/" ++ Text.pad2 d.

End Strptime.

(* ===================================================================== *)
(** ** Data model *)
(* ===================================================================== *)

(** One entry of [ECONOMIC_INDICATORS]. *)
Record indicator : Set := mk_indicator {
  name : string;
  units : string;   (* the key ['unit'] *)
  importance : string;
  description : string
}.

(** [ECONOMIC_INDICATORS], in the order of the source. *)
Definition ECONOMIC_INDICATORS : list (string * indicator) :=
  [ ("UNRATE", mk_indicator "실업률" "%" "critical" "미국 실업률");
    ("CPIAUCSL", mk_indicator "CPI (소비자물가지수)" "%" "critical" "전년동월대비 인플레이션율");
    ("PAYEMS", mk_indicator "비농업 취업자 수" "천명" "critical" "월간 고용 증가");
    ("GDPC1", mk_indicator "GDP" "%" "important" "분기별 경제성장률");
    ("RRSFS", mk_indicator "소매판매" "%" "important" "월간 소매판매 증감률") ].

(** A JSON object of the provider's [observations] list, as [.get] reads
    it; a field is [None] when the key is missing or null.  The fields
    [value] and [date], when present, are strings, as the provider
    serialises them. *)
Record observation : Set := mk_observation {
  obs_value : option string;
  obs_date : option string
}.

(** An element of a list as lines 108-116 look at it: an object, on which
    [.get] works, or something else, on which [.get] raises
    [AttributeError] and which [if previous] tests for truth. *)
Inductive item : Set :=
| Object (fields : observation)
| Falsy     (* null, false, 0, an empty string or list *)
| Truthy.   (* true, a number, a string or a list, not empty *)

(** What [data.get('observations', [])] can return, as lines 107-109 look
    at it. *)
Inductive pyvalue : Set :=
| PyList (items : list item)
| PyFalsy                     (* null, false, 0, an empty string or object *)
| PyOther (error : string).   (* true or a number: [TypeError] at [observations[0]];
                                 an object: [KeyError]; a string:
                                 [AttributeError] at [latest.get] *)

(** The value stored under a series in [indicators_data]. *)
Record snapshot : Set := mk_snapshot {
  info : indicator;
  latest_value : option string;
  latest_date : option string;
  previous_value : option string;
  previous_date : option string
}.

(** A [dict] keyed by series id, in insertion order. *)
Definition dict : Set := list (string * snapshot).

Definition keys (d : dict) : list string := map fst d.

(** [d[k] = v]: an existing key keeps its place, a new key goes last. *)
Fixpoint dict_set (k : string) (v : snapshot) (d : dict) : dict :=
  match d with
  | [] => [(k, v)]
  | (k', v') :: rest =>
      if String.eqb k' k then (k, v) :: rest else (k', v') :: dict_set k v rest
  end.

(* ===================================================================== *)
(** ** The outside world and the effect monad *)
(* ===================================================================== *)

(** The body of an HTTP response as [response.json()] and
    [data.get('observations', [])] see it: a body that is not a JSON
    object makes them raise; an object may lack the [observations] key. *)
Inductive body : Set :=
| BadBody (err : string)
| Doc (observations : option (list observation)).

Record response : Set := mk_response {
  status_code : Z;
  text : string;
  json : body
}.

(** What one [requests] call does: raise (connection failure, timeout)
    or return a response. *)
Inductive outcome : Set :=
| Raised (err : string)
| Replied (r : response).

(** Everything the program does to the outside world. *)
Inductive event : Set :=
| Printed (line : string)
| Got (series_id : string) (api_key : option string)
| Posted (url : string) (chat_id : option string) (message : string)
| Slept (seconds : Z).

(** The answers of the outside world: the environment variables, and what
    the clock, the two providers and the [schedule] library return at
    each step of the run.  The answers [fred] gives have the shape of the
    provider's schema: [observations], when present, is a list of
    objects. *)
Record oracle : Type := mk_oracle {
  FRED_API_KEY : option string;
  BOT_TOKEN : option string;
  CHAT_ID : option string;
  clock : nat -> Z;
  fred : nat -> string -> outcome;
  telegram : nat -> string -> outcome;
  pending : nat -> nat
}.

(** The outside world without the assumption on the provider's schema:
    where [odd] is [Some v] the provider answers that request with status
    200 and a JSON object whose [observations] field is [v], of whatever
    shape, instead of the answer [fred] has. *)
Record provider : Type := mk_provider {
  schema : oracle;
  odd : nat -> string -> option pyvalue
}.

(** A world whose provider keeps to the schema. *)
Definition in_schema (o : oracle) : provider := mk_provider o (fun _ _ => None).
Coercion in_schema : oracle >-> provider.

(** The state of a run: the number of questions asked to the oracle so
    far, and the events in the order they happened. *)
Record world : Set := mk_world {
  tick : nat;
  trace : list event
}.

Inductive result (A : Type) : Type :=
| Ok (a : A)
| Raise (err : string).
Arguments Ok {A} a.
Arguments Raise {A} err.

Definition M (A : Type) : Type := provider -> world -> result A * world.

Definition ret {A} (a : A) : M A := fun _ w => (Ok a, w).

Definition bind {A B} (m : M A) (k : A -> M B) : M B :=
  fun o w =>
    match m o w with
    | (Ok a, w') => k a o w'
    | (Raise e, w') => (Raise e, w')
    end.

Notation "x <- m ;; k" := (bind m (fun x => k))
  (at level 61, m at next level, right associativity).
Notation "m ;; k" := (bind m (fun _ => k))
  (at level 61, right associativity).

(** [try: m  except Exception as e: handler e]. *)
Definition try_except {A} (m : M A) (handler : string -> M A) : M A :=
  fun o w =>
    match m o w with
    | (Ok a, w') => (Ok a, w')
    | (Raise e, w') => handler e o w'
    end.

Definition getenv (var : oracle -> option string) : M (option string) :=
  fun p w => (Ok (var (schema p)), w).

(** Raising the exception of a computation that has no effect. *)
Definition lift {A} (r : result A) : M A := fun _ w => (r, w).

Definition log (ev : event) (w : world) : world :=
  mk_world (tick w) (trace w ++ [ev]).

Definition ask (w : world) : world :=
  mk_world (S (tick w)) (trace w).

Definition print (line : string) : M unit :=
  fun _ w => (Ok tt, log (Printed line) w).

Definition time_sleep (seconds : Z) : M unit :=
  fun _ w => (Ok tt, log (Slept seconds) w).

(** [datetime.now(tz)]. *)
Definition datetime_now (tz : Z) : M Time.datetime :=
  fun p w => (Ok (Time.fromtimestamp (clock (schema p) (tick w)) tz), ask w).

Definition of_outcome (r : outcome) : result response :=
  match r with
  | Raised err => Raise err
  | Replied r => Ok r
  end.

(** A response of the provider: one of the schema, or one with status
    200 and a JSON object whose [observations] field has any shape. *)
Inductive fred_response : Set :=
| Plain (r : response)
| Odd (observations : pyvalue).

Definition status_of (r : fred_response) : Z :=
  match r with
  | Plain r => status_code r
  | Odd _ => 200
  end.

(** What the provider does on the request made at step [n]. *)
Definition served (p : provider) (n : nat) (series_id : string) : result fred_response :=
  match odd p n series_id with
  | Some v => Ok (Odd v)
  | None =>
      match fred (schema p) n series_id with
      | Raised err => Raise err
      | Replied r => Ok (Plain r)
      end
  end.

(** [requests.get(url, params=..., timeout=30)] on the observations
    endpoint. *)
Definition requests_get (series_id : string) : M fred_response :=
  fun p w =>
    (served p (tick w) series_id,
     ask (log (Got series_id (FRED_API_KEY (schema p))) w)).

(** [requests.post(url, data=..., timeout=30)]. *)
Definition requests_post (url : string) (message : string) : M response :=
  fun p w =>
    (of_outcome (telegram (schema p) (tick w) message),
     ask (log (Posted url (CHAT_ID (schema p)) message) w)).

(** [response.json()] followed by [.get('observations', [])]: the value
    under the key as it is, the default [[]] when the key is missing. *)
Definition json_observations (r : fred_response) : M pyvalue :=
  fun _ w =>
    match r with
    | Plain r =>
        match json r with
        | BadBody err => (Raise err, w)
        | Doc (Some l) => (Ok (PyList (map Object l)), w)
        | Doc None => (Ok (PyList []), w)
        end
    | Odd v => (Ok v, w)
    end.

Definition nl : string := String (ascii_of_nat 10) EmptyString.

(* ===================================================================== *)
(** ** The program *)
(* ===================================================================== *)

(** *** Clock gate *)

Definition get_korean_time : M Time.datetime := datetime_now Time.KST.

Definition is_business_day : M bool :=
  korean_time <- get_korean_time ;;
  let weekday := Time.weekday korean_time in
  ret (weekday <? 5).

Definition should_send_briefing : M bool :=
  business <- is_business_day ;;
  if negb business then
    print "📅 주말이므로 브리핑을 건너뜁니다." ;;
    ret false
  else
    korean_time <- get_korean_time ;;
    let hour := Time.hour korean_time in
    let minute := Time.minute korean_time in
    if (hour =? 7) && (minute =? 30) then ret true
    else ret false.

(** *** Fetcher *)

Definition get_fred_data (series_id : string) : M pyvalue :=
  try_except
    (response <- requests_get series_id ;;
     if status_of response =? 200 then
       json_observations response
     else
       print ("❌ FRED API 오류 (" ++ series_id ++ "): "
                ++ Text.of_Z (status_of response)) ;;
       ret (PyList []))
    (fun e =>
       print ("🚨 FRED API 예외 (" ++ series_id ++ "): " ++ e) ;;
       ret (PyList [])).

(** The dictionary built from a non-empty [observations] list. *)
Definition snapshot_of (i : indicator) (latest : observation)
    (older : list observation) : snapshot :=
  let previous := hd_error older in
  mk_snapshot i
    (obs_value latest)
    (obs_date latest)
    (match previous with Some p => obs_value p | None => None end)
    (match previous with Some p => obs_date p | None => None end).

Definition no_get : string := "AttributeError: object has no attribute 'get'".

(** Lines 107 to 117 on the value [get_fred_data] returned: [None] when
    [if observations:] is false, the dictionary for the series when the
    first element is an object and the second, if any, is an object or
    false, and the exception raised otherwise. *)
Definition entry (i : indicator) (observations : pyvalue) : result (option snapshot) :=
  match observations with
  | PyList [] | PyFalsy => Ok None
  | PyOther error => Raise error
  | PyList (latest :: older) =>
      match latest with
      | Object l =>
          match hd_error older with
          | Some (Object p) => Ok (Some (snapshot_of i l [p]))
          | Some Truthy => Raise no_get
          | Some Falsy | None => Ok (Some (snapshot_of i l []))
          end
      | _ => Raise no_get
      end
  end.

(** The [for] loop of [get_latest_indicators] over the remaining
    definitions, [indicators_data] being the dictionary built so far. *)
Fixpoint collect (defs : list (string * indicator)) (indicators_data : dict)
    : M dict :=
  match defs with
  | [] => ret indicators_data
  | (series_id, i) :: rest =>
      print ("📊 " ++ name i ++ " 데이터 수집 중...") ;;
      observations <- get_fred_data series_id ;;
      made <- lift (entry i observations) ;;
      match made with
      | Some data => collect rest (dict_set series_id data indicators_data)
      | None => collect rest indicators_data
      end
  end.

Definition get_latest_indicators : M dict :=
  collect ECONOMIC_INDICATORS [].

(** *** Change calculator *)

Definition calculate_change (current previous : option string)
    : option Float64.float :=
  if negb (Text.truthy current) || negb (Text.truthy previous)
     || Text.is_str current "." || Text.is_str previous "."
  then None
  else
    match current, previous with
    | Some c, Some p =>
        match Float64.of_string c with
        | Some current_val =>
            match Float64.of_string p with
            | Some previous_val => Some (Float64.sub current_val previous_val)
            | None => None
            end
        | None => None
        end
    | _, _ => None
    end.

Definition format_change (change : option Float64.float) : string :=
  match change with
  | None => "📊 N/A"
  | Some c =>
      if Float64.gt0 c then "📈 +" ++ Float64.format_2f c
      else if Float64.lt0 c then "📉 " ++ Float64.format_2f c
      else "➡️ " ++ Float64.format_2f c
  end.

(** *** Formatter *)

(** The entries of one tier, in the order of the dictionary. *)
Definition tier (t : string) (indicators_data : dict) : dict :=
  filter (fun '(_, data) => String.eqb (importance (info data)) t) indicators_data.

(** The text [ (mm/dd)] appended after a line of the first group; empty
    when the date is absent or [strptime] raises. *)
Definition date_suffix (latest_date : option string) : string :=
  if Text.truthy latest_date then
    match Strptime.strptime_Ymd (Text.show latest_date) with
    | Some date_obj => " (" ++ Strptime.strftime_md date_obj ++ ")"
    | None => ""
    end
  else "".

(** The text shared by the lines of the two groups after the name. *)
Definition reading (data : snapshot) : string :=
  let current := latest_value data in
  let previous := previous_value data in
  let change_str := format_change (calculate_change current previous) in
  ": " ++ Text.show current ++ units (info data) ++ " " ++ change_str.

Definition shown (data : snapshot) : bool :=
  let current := latest_value data in
  Text.truthy current && negb (Text.is_str current ".").

(** The first [message +=] of an iteration over [critical_indicators]. *)
Definition critical_head (data : snapshot) : string :=
  nl ++ "- <b>" ++ name (info data) ++ "</b>" ++ reading data.

(** What one iteration of the loop over [critical_indicators] appends to
    the message; [None] when its guard skips the entry. *)
Definition critical_line (data : snapshot) : option string :=
  if shown data then Some (critical_head data ++ date_suffix (latest_date data))
  else None.

(** The only [message +=] of an iteration over [important_indicators]. *)
Definition important_head (data : snapshot) : string :=
  nl ++ "- " ++ name (info data) ++ reading data.

Definition important_line (data : snapshot) : option string :=
  if shown data then Some (important_head data) else None.

(** The lines a loop appends, each with the series it is for. *)
Fixpoint emit (line : snapshot -> option string) (items : dict)
    : list (string * string) :=
  match items with
  | [] => []
  | (series_id, data) :: rest =>
      match line data with
      | Some l => (series_id, l) :: emit line rest
      | None => emit line rest
      end
  end.

Definition critical_lines (indicators_data : dict) : list (string * string) :=
  emit critical_line (tier "critical" indicators_data).

Definition important_lines (indicators_data : dict) : list (string * string) :=
  emit important_line (tier "important" indicators_data).

(** The body lines of the briefing in the order they are written. *)
Definition body_lines (indicators_data : dict) : list (string * string) :=
  critical_lines indicators_data ++ important_lines indicators_data.

Definition join (lines : list (string * string)) : string :=
  String.concat "" (map snd lines).

(** The message of [format_economic_briefing] once the clock is read. *)
Definition render (korean_time : Time.datetime) (indicators_data : dict) : string :=
  "🇺🇸 <b>미국 경제지표 브리핑</b>" ++ nl
  ++ "📅 " ++ Time.strftime_Ymd_korean korean_time ++ " 발송" ++ nl
  ++ nl
  ++ "<b>📊 주요 지표:</b>"
  ++ join (critical_lines indicators_data)
  ++ match tier "important" indicators_data with
     | [] => ""
     | _ :: _ =>
         nl ++ nl ++ "<b>📈 기타 지표:</b>"
         ++ join (important_lines indicators_data)
     end
  ++ nl ++ nl
  ++ "<b>📊 브리핑 요약:</b>" ++ nl
  ++ "최신 미국 경제지표를 확인하세요." ++ nl
  ++ nl
  ++ "⏰ " ++ Time.strftime_HM korean_time ++ " (KST) 발송" ++ nl
  ++ "🔄 다음 브리핑: 내일 오전 7:30".

Definition format_economic_briefing (indicators_data : dict) : M string :=
  korean_time <- get_korean_time ;;
  ret (render korean_time indicators_data).

(** *** Notifier *)

Definition send_telegram_message (message : string) : M bool :=
  token <- getenv BOT_TOKEN ;;
  let url := "https://api.telegram.org/bot" ++ Text.show token ++ "/sendMessage" in
  try_except
    (response <- requests_post url message ;;
     if status_code response =? 200 then
       print "✅ 텔레그램 브리핑 전송 성공" ;;
       ret true
     else
       print ("❌ 텔레그램 전송 실패: " ++ text response) ;;
       ret false)
    (fun e =>
       print ("🚨 텔레그램 오류: " ++ e) ;;
       ret false).

(** *** One briefing cycle *)

Definition send_economic_briefing : M unit :=
  korean_time <- get_korean_time ;;
  fire <- should_send_briefing ;;
  if negb fire then ret tt
  else
    print ("📊 경제지표 브리핑 준비 중... " ++ Time.strftime_HMS korean_time) ;;
    indicators_data <- get_latest_indicators ;;
    match indicators_data with
    | [] =>
        print "❌ 경제지표 데이터를 가져올 수 없습니다."
    | _ :: _ =>
        briefing_message <- format_economic_briefing indicators_data ;;
        success <- send_telegram_message briefing_message ;;
        if success then print "✅ 경제지표 브리핑 전송 완료"
        else print "❌ 브리핑 전송 실패"
    end.

(** *** Process entry *)

Definition weekday_name (weekday : Z) : string :=
  nth (Z.to_nat weekday) ["월"; "화"; "수"; "목"; "금"; "토"; "일"] "".

Definition startup_message (korean_time : Time.datetime) : string :=
  "🇺🇸 <b>미국 경제지표 브리핑 봇 시작!</b>" ++ nl
  ++ nl
  ++ "📅 " ++ Time.strftime_Ymd_dash korean_time
  ++ " (" ++ weekday_name (Time.weekday korean_time) ++ "요일)" ++ nl
  ++ "⏰ " ++ Time.strftime_HMS korean_time ++ " (KST)" ++ nl
  ++ nl
  ++ "<b>📊 브리핑 스케줄:</b>" ++ nl
  ++ "- 매일 오전 7:30 정기 발송" ++ nl
  ++ "- 주요 경제지표 자동 수집" ++ nl
  ++ "- 평일만 운영 (주말 휴무)" ++ nl
  ++ nl
  ++ "<b>📈 포함 지표:</b>" ++ nl
  ++ "- 실업률, CPI, 비농업취업자수" ++ nl
  ++ "- GDP, 소매판매 등" ++ nl
  ++ nl
  ++ "다음 브리핑: 내일 오전 7:30 📅".

Definition send_startup_message : M unit :=
  korean_time <- get_korean_time ;;
  send_telegram_message (startup_message korean_time) ;;
  ret tt.

Definition configured (v : option string) : string :=
  if Text.truthy v then "✅ 설정됨" else "❌ 미설정".

(** The module-level statements from the first [print] to the startup
    block, that is everything before the scheduler loop. *)
Definition startup : M unit :=
  print "🇺🇸 미국 경제지표 브리핑 봇이 시작되었습니다!" ;;
  api_key <- getenv FRED_API_KEY ;;
  bot_token <- getenv BOT_TOKEN ;;
  chat_id <- getenv CHAT_ID ;;
  print ("📊 FRED_API_KEY: " ++ configured api_key) ;;
  print ("📱 BOT_TOKEN: " ++ configured bot_token) ;;
  print ("💬 CHAT_ID: " ++ configured chat_id) ;;
  korean_time <- get_korean_time ;;
  print ("🕐 현재 한국 시간: " ++ Time.strftime_Ymd_dash korean_time ++ " "
           ++ Time.strftime_HMS korean_time) ;;
  business <- is_business_day ;;
  print ("📅 평일 여부: " ++ (if business then "✅ 평일" else "❌ 주말")) ;;
  if Text.truthy api_key && Text.truthy bot_token && Text.truthy chat_id then
    send_startup_message ;;
    print "🚀 테스트 브리핑을 전송합니다..." ;;
    send_economic_briefing
  else
    print "⚠️ 환경변수가 설정되지 않았습니다!".

(** *** Scheduler loop *)

Fixpoint run_jobs (due : nat) (job : M unit) : M unit :=
  match due with
  | O => ret tt
  | S k => job ;; run_jobs k job
  end.

(** [schedule.run_pending()]: the library decides how many of the two
    registered jobs are due; both are [send_economic_briefing]. *)
Definition run_pending : M unit :=
  fun p w => run_jobs (pending (schema p) (tick w)) send_economic_briefing p (ask w).

(** The first [wakes] rounds of [while True: run_pending(); sleep(60)]. *)
Fixpoint scheduler (wakes : nat) : M unit :=
  match wakes with
  | O => ret tt
  | S k => run_pending ;; time_sleep 60 ;; scheduler k
  end.

Definition main (wakes : nat) : M unit :=
  startup ;;
  print "⏰ 스케줄러 시작... (매일 오전 7:30 브리핑)" ;;
  scheduler wakes.

(** *** Observations on a run *)

Definition initial : world := mk_world O [].

Definition is_post (ev : event) : bool :=
  match ev with Posted _ _ _ => true | _ => false end.

Definition is_get (ev : event) : bool :=
  match ev with Got _ _ => true | _ => false end.

Definition posts (w : world) : list event := filter is_post (trace w).
Definition gets (w : world) : list event := filter is_get (trace w).

(** An HTTP request that failed: it raised, or the status is not 200. *)
Definition request_failed (r : outcome) : bool :=
  match r with
  | Raised _ => true
  | Replied resp => negb (status_code resp =? 200)
  end.

(** The observations [get_fred_data] returns on an outcome. *)
Definition observations_of (r : outcome) : list observation :=
  match r with
  | Replied resp =>
      if status_code resp =? 200 then
        match json resp with
        | Doc (Some l) => l
        | _ => []
        end
      else []
  | Raised _ => []
  end.

(* ===================================================================== *)
(** ** Vocabulary of the statements *)
(* ===================================================================== *)

(** [float(v)] on a [str]-or-[None] value; [None] stands for the
    [ValueError] or [TypeError] that [calculate_change] catches. *)
Definition numeric (v : option string) : option Float64.float :=
  match v with
  | Some s => Float64.of_string s
  | None => None
  end.

(** [l1] is [l2] with some elements left out, the order kept. *)
Inductive Subseq {A : Type} : list A -> list A -> Prop :=
| Subseq_nil : Subseq [] []
| Subseq_skip (x : A) (l1 l2 : list A) : Subseq l1 l2 -> Subseq l1 (x :: l2)
| Subseq_keep (x : A) (l1 l2 : list A) : Subseq l1 l2 -> Subseq (x :: l1) (x :: l2).

(** The static definition of a series. *)
Definition definition_of (series_id : string) : indicator :=
  match find (fun e => String.eqb (fst e) series_id) ECONOMIC_INDICATORS with
  | Some (_, i) => i
  | None => mk_indicator "" "" "" ""
  end.

(** An entry of the given tier that the loops give a line to. *)
Definition lined (t : string) (e : string * snapshot) : bool :=
  String.eqb (importance (info (snd e))) t && shown (snd e).

(** The snapshot [get_latest_indicators] builds for a series from its
    two newest observations. *)
Definition snap (series_id : string) (latest previous : observation) : snapshot :=
  snapshot_of (definition_of series_id) latest [previous].

Definition obs (value date : string) : observation :=
  mk_observation (Some value) (Some date).

(** A dictionary with a rising unemployment rate, a consumer price index
    whose latest value is the missing-value token, and a falling GDP. *)
Definition scenario : dict :=
  [ ("UNRATE", snap "UNRATE" (obs "4.3" "2024-08-01") (obs "4.1" "2024-07-01"));
    ("CPIAUCSL", snap "CPIAUCSL" (obs "." "2024-08-01") (obs "3.2" "2024-07-01"));
    ("GDPC1", snap "GDPC1" (obs "23223.906" "2024-04-01") (obs "23400.1" "2024-01-01")) ].

(** *** Runs in closed form

    What each effectful function leaves in the trace and returns, as a
    function of the oracle and of the step [t] at which it starts.  The
    lemmas named [..._run] prove that the program computes exactly
    these. *)

Definition is_sleep (ev : event) : bool :=
  match ev with Slept _ => true | _ => false end.

Definition sleeps (w : world) : list event := filter is_sleep (trace w).

(** What [get_fred_data] prints once the request is made. *)
Definition fred_log (series_id : string) (r : outcome) : list event :=
  match r with
  | Raised e => [Printed ("🚨 FRED API 예외 (" ++ series_id ++ "): " ++ e)]
  | Replied resp =>
      if status_code resp =? 200 then
        match json resp with
        | BadBody e => [Printed ("🚨 FRED API 예외 (" ++ series_id ++ "): " ++ e)]
        | Doc _ => []
        end
      else [Printed ("❌ FRED API 오류 (" ++ series_id ++ "): "
                       ++ Text.of_Z (status_code resp))]
  end.

(** The entries [get_latest_indicators] adds for the definitions [defs]
    when the first request is made at step [t]. *)
Fixpoint fetched (o : oracle) (t : nat) (defs : list (string * indicator)) : dict :=
  match defs with
  | [] => []
  | (series_id, i) :: rest =>
      match observations_of (fred o t series_id) with
      | latest :: older => (series_id, snapshot_of i latest older) :: fetched o (S t) rest
      | [] => fetched o (S t) rest
      end
  end.

Fixpoint fetch_events (o : oracle) (t : nat) (defs : list (string * indicator))
    : list event :=
  match defs with
  | [] => []
  | (series_id, i) :: rest =>
      Printed ("📊 " ++ name i ++ " 데이터 수집 중...")
        :: Got series_id (FRED_API_KEY o)
        :: fred_log series_id (fred o t series_id) ++ fetch_events o (S t) rest
  end.

(** The requests of a fetch cycle whose first request is made at step
    [t]: the step and the series of each, in order. *)
Definition requests (t : nat) : list (nat * string) :=
  combine (seq t (List.length ECONOMIC_INDICATORS)) (map fst ECONOMIC_INDICATORS).

Definition answer (o : oracle) (q : nat * string) : outcome :=
  fred o (fst q) (snd q).

Definition has_observations (r : outcome) : bool :=
  match observations_of r with
  | [] => false
  | _ :: _ => true
  end.

(** The notifier's verdict and log line on an outcome. *)
Definition delivered (r : outcome) : bool :=
  match r with
  | Replied resp => status_code resp =? 200
  | Raised _ => false
  end.

Definition telegram_line (r : outcome) : string :=
  match r with
  | Raised e => "🚨 텔레그램 오류: " ++ e
  | Replied resp =>
      if status_code resp =? 200 then "✅ 텔레그램 브리핑 전송 성공"
      else "❌ 텔레그램 전송 실패: " ++ text resp
  end.

Definition telegram_url (o : oracle) : string :=
  "https://api.telegram.org/bot" ++ Text.show (BOT_TOKEN o) ++ "/sendMessage".

Definition sent (o : oracle) (t : nat) (message : string) : list event :=
  [ Posted (telegram_url o) (CHAT_ID o) message;
    Printed (telegram_line (telegram o t message)) ].

Definition korean (o : oracle) (t : nat) : Time.datetime :=
  Time.fromtimestamp (clock o t) Time.KST.

(** The clock gate asked at step [t]: the weekday is read at [t], hour
    and minute at [t + 1]. *)
Definition business_day (o : oracle) (t : nat) : bool :=
  Time.weekday (korean o t) <? 5.

Definition at_0730 (o : oracle) (t : nat) : bool :=
  (Time.hour (korean o t) =? 7) && (Time.minute (korean o t) =? 30).

(** The world after one call of [send_economic_briefing] from [w]. *)
Definition after_cycle (o : oracle) (w : world) : world :=
  let t := tick w in
  if business_day o (1 + t) then
    if at_0730 o (2 + t) then
      let d := fetched o (3 + t) ECONOMIC_INDICATORS in
      let fetching :=
        Printed ("📊 경제지표 브리핑 준비 중... " ++ Time.strftime_HMS (korean o t))
          :: fetch_events o (3 + t) ECONOMIC_INDICATORS in
      match d with
      | [] =>
          mk_world (8 + t)
            (trace w ++ fetching ++ [Printed "❌ 경제지표 데이터를 가져올 수 없습니다."])
      | _ :: _ =>
          let message := render (korean o (8 + t)) d in
          mk_world (10 + t)
            (trace w ++ fetching ++ sent o (9 + t) message
               ++ [Printed (if delivered (telegram o (9 + t) message)
                            then "✅ 경제지표 브리핑 전송 완료"
                            else "❌ 브리핑 전송 실패")])
      end
    else mk_world (3 + t) (trace w)
  else mk_world (2 + t) (trace w ++ [Printed "📅 주말이므로 브리핑을 건너뜁니다."]).

(** What the process prints at start before the startup block. *)
Definition banner (o : oracle) : list event :=
  [ Printed "🇺🇸 미국 경제지표 브리핑 봇이 시작되었습니다!";
    Printed ("📊 FRED_API_KEY: " ++ configured (FRED_API_KEY o));
    Printed ("📱 BOT_TOKEN: " ++ configured (BOT_TOKEN o));
    Printed ("💬 CHAT_ID: " ++ configured (CHAT_ID o));
    Printed ("🕐 현재 한국 시간: " ++ Time.strftime_Ymd_dash (korean o 0) ++ " "
               ++ Time.strftime_HMS (korean o 0));
    Printed ("📅 평일 여부: " ++ (if business_day o 1 then "✅ 평일" else "❌ 주말")) ].

(** The three secrets are set. *)
Definition secrets_present (o : oracle) : bool :=
  Text.truthy (FRED_API_KEY o) && Text.truthy (BOT_TOKEN o) && Text.truthy (CHAT_ID o).

(** The world in which the startup block calls [send_economic_briefing]. *)
Definition before_first_cycle (o : oracle) : world :=
  mk_world 4
    (banner o ++ sent o 3 (startup_message (korean o 2))
       ++ [Printed "🚀 테스트 브리핑을 전송합니다..."]).

(** An oracle with the three secrets set, a clock stopped at [now], and
    providers that answer by series and always the same. *)
Definition steady (now : Z) (answer : string -> outcome) (reply : outcome) : oracle :=
  mk_oracle (Some "fred-key") (Some "bot-token") (Some "chat-42")
    (fun _ => now) (fun _ => answer) (fun _ _ => reply) (fun _ => 1%nat).

Definition ok_reply : outcome := Replied (mk_response 200 "ok" (Doc None)).

Definition observed (l : list observation) : outcome :=
  Replied (mk_response 200 "{...}" (Doc (Some l))).

Definition two_observations : outcome :=
  observed [obs "4.3" "2024-08-01"; obs "4.1" "2024-07-01"].

(** A provider that answers 500 for one series, times out for another
    and serves the other three. *)
Definition two_down (now : Z) : oracle :=
  steady now
    (fun series_id =>
       if String.eqb series_id "CPIAUCSL"
       then Replied (mk_response 500 "Internal Server Error" (BadBody "no JSON"))
       else if String.eqb series_id "RRSFS" then Raised "Read timed out."
       else two_observations)
    ok_reply.

(** A provider that answers 200 with an empty [observations] list for
    one series and serves the other four. *)
Definition one_empty (now : Z) : oracle :=
  steady now
    (fun series_id =>
       if String.eqb series_id "UNRATE" then observed [] else two_observations)
    ok_reply.

(** A provider that is down, and a chat that answers 200. *)
Definition all_down (now : Z) : oracle :=
  steady now (fun _ => Raised "Connection refused") ok_reply.

(** A provider that is down during the five requests of a cycle started
    at step 0 (steps 3 to 7) and serves every series before and after. *)
Definition down_for_one_cycle (now : Z) : oracle :=
  mk_oracle (Some "fred-key") (Some "bot-token") (Some "chat-42")
    (fun _ => now)
    (fun n _ => if (3 <=? n)%nat && (n <=? 7)%nat
                then Raised "Connection refused" else two_observations)
    (fun _ _ => ok_reply) (fun _ => 1%nat).

(** A provider that serves every series, and a chat that answers 403. *)
Definition chat_refuses (now : Z) : oracle :=
  steady now (fun _ => two_observations)
    (Replied (mk_response 403 "Forbidden" (BadBody "no JSON"))).

(** Wednesday 2024-08-07 07:30:00 and 10:15:00, and Saturday 2024-08-10
    07:30:00, all UTC+9, as POSIX seconds. *)
Definition wed_0730 : Z := 1722983400.
Definition wed_1015 : Z := 1722993300.
Definition sat_0730 : Z := 1723242600.

(** *** Vocabulary of the further properties *)

(** A float that is a number: a zero or a finite value. *)
Definition is_number (x : Float64.float) : bool :=
  match x with
  | S754_zero _ | S754_finite _ _ _ => true
  | _ => false
  end.

(** The part of the briefing before the lines of the first group, and the
    part after the last line. *)
Definition briefing_head (korean_time : Time.datetime) : string :=
  "🇺🇸 <b>미국 경제지표 브리핑</b>" ++ nl
  ++ "📅 " ++ Time.strftime_Ymd_korean korean_time ++ " 발송" ++ nl
  ++ nl
  ++ "<b>📊 주요 지표:</b>".

Definition important_title : string :=
  nl ++ nl ++ "<b>📈 기타 지표:</b>".

Definition briefing_foot (korean_time : Time.datetime) : string :=
  nl ++ nl
  ++ "<b>📊 브리핑 요약:</b>" ++ nl
  ++ "최신 미국 경제지표를 확인하세요." ++ nl
  ++ nl
  ++ "⏰ " ++ Time.strftime_HM korean_time ++ " (KST) 발송" ++ nl
  ++ "🔄 다음 브리핑: 내일 오전 7:30".

(** The five requests of a fetch cycle as they appear in the trace. *)
Definition five_requests (o : oracle) : list event :=
  map (fun e => Got (fst e) (FRED_API_KEY o)) ECONOMIC_INDICATORS.

(** An oracle whose clock starts at [start] and advances one second per
    reading; the provider serves every series and the chat answers 200. *)
Definition ticking (start : Z) : oracle :=
  mk_oracle (Some "fred-key") (Some "bot-token") (Some "chat-42")
    (fun n => start + Z.of_nat n) (fun _ _ => two_observations)
    (fun _ _ => ok_reply) (fun _ => 1%nat).

(** An oracle with no chat identifier in the environment. *)
Definition unconfigured (now : Z) : oracle :=
  mk_oracle (Some "fred-key") (Some "bot-token") None
    (fun _ => now) (fun _ _ => two_observations) (fun _ _ => ok_reply)
    (fun _ => 1%nat).

(** A provider that has a single observation for every series. *)
Definition one_observation (now : Z) : oracle :=
  steady now (fun _ => observed [obs "4.3" "2024-08-01"]) ok_reply.

(** A value of the [observations] field on which lines 108 to 116 raise:
    a value that is true and not a list, a list whose first element is
    not an object, or whose second element is neither an object nor
    false. *)
Definition breaks (v : pyvalue) : bool :=
  match v with
  | PyOther _ => true
  | PyFalsy | PyList [] => false
  | PyList (Object _ :: Truthy :: _) => true
  | PyList (Object _ :: _) => false
  | PyList (_ :: _) => true
  end.

(** The request [q] (step and series) is answered with such a value. *)
Definition breaking (p : provider) (q : nat * string) : bool :=
  match odd p (fst q) (snd q) with
  | Some v => breaks v
  | None => false
  end.

(** The observations lines 108 to 116 read from a value they accept. *)
Definition seen (v : pyvalue) : list observation :=
  match v with
  | PyList (Object l :: Object p :: _) => [l; p]
  | PyList (Object l :: _) => [l]
  | _ => []
  end.

(** The world of the schema that answers like [p]: an answer of another
    shape is replaced by the list of the observations read from it. *)
Definition repaired (p : provider) : oracle :=
  mk_oracle (FRED_API_KEY (schema p)) (BOT_TOKEN (schema p)) (CHAT_ID (schema p))
    (clock (schema p))
    (fun n series_id =>
       match odd p n series_id with
       | Some v => Replied (mk_response 200 "" (Doc (Some (seen v))))
       | None => fred (schema p) n series_id
       end)
    (telegram (schema p)) (pending (schema p)).

(** The computation [m] does in [p] what it does in the world [o] of the
    schema. *)
Definition agrees {A : Type} (m : M A) (p : provider) (o : oracle) : Prop :=
  forall w, m p w = m o w.

(** A provider that serves every series, and answers the request for the
    given series with a JSON object whose [observations] field is [v]. *)
Definition answering (now : Z) (series_id : string) (v : pyvalue) : provider :=
  mk_provider (steady now (fun _ => two_observations) ok_reply)
    (fun _ k => if String.eqb k series_id then Some v else None).

(** A dictionary whose only important entry has the missing-value token
    as latest value. *)
Definition gdp_missing : dict :=
  [ ("UNRATE", snap "UNRATE" (obs "4.3" "2024-08-01") (obs "4.1" "2024-07-01"));
    ("GDPC1", snap "GDPC1" (obs "." "2024-04-01") (obs "23400.1" "2024-01-01")) ].

(* ===================================================================== *)
(** * Properties *)
(* ===================================================================== *)

(** ** Clock gate *)

Section ClockGate.

Variable o : oracle.
Variable w : world.

(** The two clock readings [should_send_briefing] may take. *)
Let first_reading := Time.fromtimestamp (clock o (tick w)) Time.KST.
Let second_reading := Time.fromtimestamp (clock o (S (tick w))) Time.KST.

(** The gate in closed form: the weekday comes from the first reading,
    hour and minute from the second. *)
Lemma should_send_briefing_run :
  should_send_briefing o w =
    if Time.weekday first_reading <? 5
    then (Ok ((Time.hour second_reading =? 7) && (Time.minute second_reading =? 30)),
          ask (ask w))
    else (Ok false, log (Printed "📅 주말이므로 브리핑을 건너뜁니다.") (ask w)).
Proof.
  unfold should_send_briefing, is_business_day, get_korean_time, datetime_now,
    bind, ret, print, first_reading, second_reading.
  cbv beta iota.
  destruct (Time.weekday _ <? 5); cbn [negb]; cbv beta iota.
  - destruct (_ && _); reflexivity.
  - reflexivity.
Qed.

Lemma is_business_day_run :
  is_business_day o w = (Ok (Time.weekday first_reading <? 5), ask w).
Proof. reflexivity. Qed.

End ClockGate.

Lemma weekday_range (d : Time.datetime) : 0 <= Time.weekday d < 7.
Proof. unfold Time.weekday. apply Z.mod_pos_bound. lia. Qed.

Lemma hour_range (d : Time.datetime) : 0 <= Time.hour d < 24.
Proof.
  unfold Time.hour, Time.second_of_day.
  pose proof (Z.mod_pos_bound (Time.civil d) 86400 ltac:(lia)) as H.
  split.
  - apply Z.div_pos; lia.
  - apply Z.div_lt_upper_bound; lia.
Qed.

Lemma minute_range (d : Time.datetime) : 0 <= Time.minute d < 60.
Proof.
  unfold Time.minute.
  pose proof (Z.mod_pos_bound (Time.second_of_day d) 3600 ltac:(lia)) as H.
  split.
  - apply Z.div_pos; lia.
  - apply Z.div_lt_upper_bound; lia.
Qed.

(** Two readings less than seven and a half hours apart agree on the
    weekday whenever the later one shows 07:30, so the two clock reads of
    the gate cannot disagree within one call. *)
Lemma same_weekday_at_0730 (t1 t2 : Z) :
  t1 <= t2 < t1 + 27000 ->
  let d1 := Time.fromtimestamp t1 Time.KST in
  let d2 := Time.fromtimestamp t2 Time.KST in
  Time.hour d2 = 7 -> Time.minute d2 = 30 ->
  Time.weekday d1 = Time.weekday d2.
Proof.
  intros Hgap d1 d2 Hh Hm.
  unfold Time.weekday. f_equal. f_equal.
  unfold Time.hour, Time.minute, Time.second_of_day, Time.days in *.
  subst d1 d2. unfold Time.fromtimestamp, Time.KST in *. cbn [Time.civil] in *.
  set (a := t1 + 9 * 3600) in *. set (b := t2 + 9 * 3600) in *.
  assert (Hab : a <= b < a + 27000) by (subst a b; lia).
  clearbody a b. clear Hgap.
  pose proof (Z.div_mod b 86400 ltac:(lia)) as Eb.
  pose proof (Z.mod_pos_bound b 86400 ltac:(lia)) as Bb.
  pose proof (Z.div_mod a 86400 ltac:(lia)) as Ea.
  pose proof (Z.mod_pos_bound a 86400 ltac:(lia)) as Ba.
  set (sb := b mod 86400) in *.
  pose proof (Z.div_mod sb 3600 ltac:(lia)) as Es.
  pose proof (Z.mod_pos_bound sb 3600 ltac:(lia)) as Bs.
  rewrite Hh in Es.
  set (r := sb mod 3600) in *.
  pose proof (Z.div_mod r 60 ltac:(lia)) as Er.
  pose proof (Z.mod_pos_bound r 60 ltac:(lia)) as Br.
  rewrite Hm in Er.
  assert (27000 <= sb < 27060) by lia.
  nia.
Qed.

(** C3. When both clock reads of one call show the same instant: on a
    Saturday or Sunday (UTC+9) [should_send_briefing] returns [False]
    whatever the hour and minute; on Monday to Friday it returns [True]
    exactly when the hour is 7 and the minute is 30, and [False]
    otherwise. *)
Theorem should_send_briefing_weekday_0730 (o : oracle) (w : world) (now : Z) :
  clock o (tick w) = now ->
  clock o (S (tick w)) = now ->
  let korean_time := Time.fromtimestamp now Time.KST in
  (Time.weekday korean_time = 5 \/ Time.weekday korean_time = 6 ->
     fst (should_send_briefing o w) = Ok false)
  /\ (Time.weekday korean_time < 5 ->
      (fst (should_send_briefing o w) = Ok true <->
         Time.hour korean_time = 7 /\ Time.minute korean_time = 30)
      /\ (fst (should_send_briefing o w) = Ok false <->
         ~ (Time.hour korean_time = 7 /\ Time.minute korean_time = 30))).
Proof.
  intros H1 H2 korean_time.
  rewrite should_send_briefing_run, H1, H2. fold korean_time.
  split.
  - intros Hwe.
    destruct (Z.ltb_spec (Time.weekday korean_time) 5) as [Hlt | Hge]; [lia | reflexivity].
  - intros Hwd.
    destruct (Z.ltb_spec (Time.weekday korean_time) 5) as [Hlt | Hge]; [| lia].
    cbn [fst].
    destruct (Z.eqb_spec (Time.hour korean_time) 7) as [Hh | Hh];
      destruct (Z.eqb_spec (Time.minute korean_time) 30) as [Hm | Hm];
      cbn [andb]; repeat split; intros; try congruence; try tauto; try discriminate.
Qed.

Lemma should_send_briefing_weekday_0730_witness :
  fst (should_send_briefing (steady wed_0730 (fun _ => ok_reply) ok_reply) initial)
    = Ok true
  /\ fst (should_send_briefing (steady sat_0730 (fun _ => ok_reply) ok_reply) initial)
    = Ok false.
Proof.
  split.
  - apply (proj2 (should_send_briefing_weekday_0730
                    (steady wed_0730 (fun _ => ok_reply) ok_reply) initial wed_0730
                    eq_refl eq_refl)).
    + vm_compute. reflexivity.
    + split; reflexivity.
  - apply (proj1 (should_send_briefing_weekday_0730
                    (steady sat_0730 (fun _ => ok_reply) ok_reply) initial sat_0730
                    eq_refl eq_refl)).
    left. reflexivity.
Defined.

(** ** Change calculator *)

Lemma falsy_not_numeric (v : option string) :
  Text.truthy v = false -> numeric v = None.
Proof. destruct v as [[|c s]|]; cbn; intros H; [reflexivity | discriminate | reflexivity]. Qed.

Lemma missing_token_not_numeric (v : option string) :
  Text.is_str v "." = true -> numeric v = None.
Proof.
  destruct v as [s|]; cbn; [| discriminate].
  intros H. apply String.eqb_eq in H. subst s. vm_compute. reflexivity.
Qed.

(** The two guards of [calculate_change] only cut short what [float]
    would refuse anyway. *)
Lemma calculate_change_numeric (current previous : option string) :
  calculate_change current previous =
    match numeric current, numeric previous with
    | Some x, Some y => Some (Float64.sub x y)
    | _, _ => None
    end.
Proof.
  unfold calculate_change.
  destruct (Text.truthy current) eqn:Tc; cbn [negb orb].
  2: { rewrite (falsy_not_numeric _ Tc). reflexivity. }
  destruct (Text.truthy previous) eqn:Tp; cbn [negb orb].
  2: { rewrite (falsy_not_numeric _ Tp). destruct (numeric current); reflexivity. }
  destruct (Text.is_str current ".") eqn:Dc; cbn [orb].
  1: { rewrite (missing_token_not_numeric _ Dc). reflexivity. }
  destruct (Text.is_str previous ".") eqn:Dp.
  1: { rewrite (missing_token_not_numeric _ Dp). destruct (numeric current); reflexivity. }
  destruct current as [c|]; [| discriminate].
  destruct previous as [p|]; [| discriminate].
  cbn [numeric].
  destruct (Float64.of_string c); [| reflexivity].
  destruct (Float64.of_string p); reflexivity.
Qed.

(** C2, as the code has it.  [calculate_change] returns [None] when a side
    is absent, is the missing-value token, or is refused by [float]; when
    both sides parse it returns the binary64 difference of the two parsed
    floats.  On "4.3" and "4.1" that is 7205759403792800 * 2^-55, about
    0.20000000000000018, which [format_change] shows as +0.20. *)
Theorem calculate_change_float_difference (current previous : option string) :
  ((current = None \/ previous = None
    \/ current = Some "." \/ previous = Some "."
    \/ numeric current = None \/ numeric previous = None) ->
   calculate_change current previous = None)
  /\ (forall x y : Float64.float,
        numeric current = Some x -> numeric previous = Some y ->
        calculate_change current previous = Some (Float64.sub x y))
  /\ calculate_change (Some "4.3") (Some "4.1")
       = Some (S754_finite false 7205759403792800 (-55))
  /\ format_change (calculate_change (Some "4.3") (Some "4.1")) = "📈 +0.20".
Proof.
  split; [| split; [| split]].
  - rewrite calculate_change_numeric.
    assert (Hdot : numeric (Some ".") = None) by (vm_compute; reflexivity).
    intros [H | [H | [H | [H | [H | H]]]]]; subst;
      try rewrite Hdot; try rewrite H; cbn [numeric];
      try reflexivity; destruct (numeric current); reflexivity.
  - intros x y Hx Hy. rewrite calculate_change_numeric, Hx, Hy. reflexivity.
  - vm_compute. reflexivity.
  - vm_compute. reflexivity.
Qed.

Lemma calculate_change_float_difference_witness :
  calculate_change (Some "1.5") (Some "0.25")
    = Some (Float64.sub (S754_finite false 6755399441055744 (-52))
                        (S754_finite false 4503599627370496 (-54)))
  /\ calculate_change (Some "4.3") None = None.
Proof.
  split.
  - apply (proj1 (proj2 (calculate_change_float_difference (Some "1.5") (Some "0.25"))));
      vm_compute; reflexivity.
  - apply (proj1 (calculate_change_float_difference (Some "4.3") None)).
    right. left. reflexivity.
Defined.

(** C2 as stated fails: on "4.3" and "4.1" the result is a float that
    does not stand for the rational 2/10, nor is it the float that "0.2"
    parses to. *)
Lemma calculate_change_4_3_4_1_is_not_0_2 :
  exists r : Float64.float,
    calculate_change (Some "4.3") (Some "4.1") = Some r
    /\ Float64.denotes r 2 10 = false
    /\ Float64.of_string "0.2" <> Some r.
Proof.
  exists (S754_finite false 7205759403792800 (-55)).
  split; [vm_compute; reflexivity |].
  split; [vm_compute; reflexivity |].
  vm_compute. discriminate.
Qed.

(** ** Formatter *)

Lemma emit_In (line : snapshot -> option string) (items : dict) (k l : string) :
  In (k, l) (emit line items) <->
  exists data, In (k, data) items /\ line data = Some l.
Proof.
  induction items as [| [k' data'] rest IH]; cbn [emit].
  - split; [intros [] | intros (data & [] & _)].
  - destruct (line data') as [l' |] eqn:E.
    + cbn [In]. rewrite IH. split.
      * intros [H | (data & Hin & Hl)].
        -- injection H as -> ->. exists data'. split; [left; reflexivity | exact E].
        -- exists data. split; [right; exact Hin | exact Hl].
      * intros (data & [H | Hin] & Hl).
        -- injection H as -> ->. left. congruence.
        -- right. exists data. split; assumption.
    + rewrite IH. split.
      * intros (data & Hin & Hl). exists data. split; [right; exact Hin | exact Hl].
      * intros (data & [H | Hin] & Hl).
        -- injection H as -> ->. congruence.
        -- exists data. split; assumption.
Qed.

Lemma tier_In (t : string) (d : dict) (k : string) (data : snapshot) :
  In (k, data) (tier t d) <-> In (k, data) d /\ importance (info data) = t.
Proof.
  unfold tier. rewrite filter_In. cbn. rewrite String.eqb_eq. reflexivity.
Qed.

(** A dictionary holds one value per key. *)
Lemma dict_functional (d : dict) (k : string) (a b : snapshot) :
  NoDup (keys d) -> In (k, a) d -> In (k, b) d -> a = b.
Proof.
  unfold keys. induction d as [| [k' v] rest IH]; cbn [map In fst]; intros Hnd Ha Hb.
  - contradiction.
  - inversion Hnd as [| ? ? Hnot Hnd']; subst.
    destruct Ha as [Ha | Ha], Hb as [Hb | Hb].
    + congruence.
    + injection Ha as -> ->. exfalso. apply Hnot.
      apply (in_map fst) in Hb. exact Hb.
    + injection Hb as -> ->. exfalso. apply Hnot.
      apply (in_map fst) in Ha. exact Ha.
    + apply IH; assumption.
Qed.

(** The lines of the body that belong to one entry of the dictionary. *)
Lemma body_line_of (d : dict) (k : string) (data : snapshot) (l : string) :
  NoDup (keys d) -> In (k, data) d ->
  (In (k, l) (body_lines d) <->
   (importance (info data) = "critical" /\ critical_line data = Some l)
   \/ (importance (info data) = "important" /\ important_line data = Some l)).
Proof.
  intros Hnd Hin. unfold body_lines, critical_lines, important_lines.
  rewrite in_app_iff, !emit_In. split.
  - intros [(data' & Ht & Hl) | (data' & Ht & Hl)];
      apply tier_In in Ht; destruct Ht as [Hin' Himp];
      rewrite (dict_functional d k data data' Hnd Hin Hin'); tauto.
  - intros [[Himp Hl] | [Himp Hl]]; [left | right];
      exists data; (split; [apply tier_In; split; assumption | exact Hl]).
Qed.

Lemma append_empty (s : string) : s ++ "" = s.
Proof. induction s as [| c s IH]; cbn; [reflexivity | now rewrite IH]. Qed.

Lemma append_assoc (a b c : string) : (a ++ b) ++ c = a ++ b ++ c.
Proof. induction a as [| x a IH]; cbn; [reflexivity | now rewrite IH]. Qed.

(** The three cases of the date suffix. *)
Lemma date_suffix_parsed (s : string) (y m dd : Z) :
  Strptime.strptime_Ymd s = Some (y, m, dd) ->
  date_suffix (Some s) = " (" ++ Text.pad2 m ++ "/" ++ Text.pad2 dd ++ ")".
Proof.
  intros H. unfold date_suffix.
  destruct s as [| c s']; [vm_compute in H; discriminate |].
  cbn [Text.truthy Text.show]. rewrite H. unfold Strptime.strftime_md.
  now rewrite !append_assoc.
Qed.

Lemma date_suffix_unparsed (s : string) :
  Strptime.strptime_Ymd s = None -> date_suffix (Some s) = "".
Proof.
  intros H. unfold date_suffix.
  destruct (Text.truthy (Some s)); [| reflexivity].
  cbn [Text.show]. rewrite H. reflexivity.
Qed.

Lemma shown_not_missing (data : snapshot) :
  latest_value data = Some "." -> shown data = false.
Proof. intros H. unfold shown. rewrite H. reflexivity. Qed.

Lemma keys_emit (line : snapshot -> option string) (items : dict) :
  map fst (emit line items)
  = keys (filter (fun e => match line (snd e) with Some _ => true | None => false end) items).
Proof.
  unfold keys. induction items as [| [k data] rest IH]; cbn [emit filter snd].
  - reflexivity.
  - destruct (line data); cbn [map fst]; now rewrite IH.
Qed.

Lemma filter_filter {A : Type} (p q : A -> bool) (l : list A) :
  filter p (filter q l) = filter (fun x => q x && p x) l.
Proof.
  induction l as [| x l IH]; cbn [filter]; [reflexivity |].
  destruct (q x); cbn [filter andb]; [destruct (p x) |]; now rewrite IH.
Qed.

Lemma keys_lines (head : snapshot -> option string) (t : string) (d : dict) :
  (forall data, (match head data with Some _ => true | None => false end) = shown data) ->
  map fst (emit head (tier t d)) = keys (filter (lined t) d).
Proof.
  intros Hhead. rewrite keys_emit. unfold tier. rewrite filter_filter.
  f_equal. apply filter_ext. intros [k data]. unfold lined. cbn [snd].
  now rewrite Hhead.
Qed.

Ltac solve_nodup :=
  repeat (constructor; [cbn; intuition discriminate |]); constructor.

(** C4, as the code has it.  For an entry of the dictionary that is given
    a line: in the critical group the line is the head of the line
    followed by the latest date as [ (mm/dd)] when [strptime] accepts the
    date, and the head alone when the date is refused or absent; in the
    important group the line is the head alone, whatever the date. *)
Theorem date_suffix_on_critical_lines_only (d : dict) (k : string) (data : snapshot) :
  NoDup (keys d) -> In (k, data) d -> shown data = true ->
  (importance (info data) = "critical" ->
     (forall s y m dd,
        latest_date data = Some s -> Strptime.strptime_Ymd s = Some (y, m, dd) ->
        forall l, In (k, l) (body_lines d) <->
                  l = critical_head data ++ " (" ++ Text.pad2 m ++ "/" ++ Text.pad2 dd ++ ")")
     /\ (forall s,
           latest_date data = Some s -> Strptime.strptime_Ymd s = None ->
           forall l, In (k, l) (body_lines d) <-> l = critical_head data)
     /\ (latest_date data = None ->
         forall l, In (k, l) (body_lines d) <-> l = critical_head data))
  /\ (importance (info data) = "important" ->
      forall l, In (k, l) (body_lines d) <-> l = important_head data).
Proof.
  intros Hnd Hin Hshown.
  assert (Hcrit : forall suffix, importance (info data) = "critical" ->
            date_suffix (latest_date data) = suffix ->
            forall l, In (k, l) (body_lines d) <-> l = critical_head data ++ suffix).
  { intros suffix Himp Hs l. rewrite (body_line_of d k data l Hnd Hin).
    unfold critical_line, important_line. rewrite Hshown, Hs, Himp.
    split.
    - intros [[_ H] | [H _]]; [congruence | discriminate].
    - intros ->. left. split; reflexivity. }
  split.
  - intros Himp. split; [| split].
    + intros s y m dd Hd Hp. apply Hcrit; [exact Himp |].
      rewrite Hd. apply (date_suffix_parsed s y m dd Hp).
    + intros s Hd Hp l. rewrite (Hcrit "" Himp).
      * now rewrite append_empty.
      * rewrite Hd. apply date_suffix_unparsed, Hp.
    + intros Hd l. rewrite (Hcrit "" Himp).
      * now rewrite append_empty.
      * rewrite Hd. reflexivity.
  - intros Himp l. rewrite (body_line_of d k data l Hnd Hin).
    unfold critical_line, important_line. rewrite Hshown, Himp.
    split.
    + intros [[H _] | [_ H]]; [discriminate | congruence].
    + intros ->. right. split; reflexivity.
Qed.

Lemma date_suffix_on_critical_lines_only_witness :
  In ("UNRATE", nl ++ "- <b>실업률</b>: 4.3% 📈 +0.20 (08/01)") (body_lines scenario)
  /\ In ("GDPC1", nl ++ "- GDP: 23223.906% 📉 -176.19") (body_lines scenario).
Proof.
  assert (Hnd : NoDup (keys scenario)) by (cbn; solve_nodup).
  split.
  - apply (proj1 (proj1 (date_suffix_on_critical_lines_only scenario "UNRATE"
             (snap "UNRATE" (obs "4.3" "2024-08-01") (obs "4.1" "2024-07-01"))
             Hnd (or_introl eq_refl) eq_refl) eq_refl)
             "2024-08-01" 2024 8 1 eq_refl eq_refl).
    vm_compute. reflexivity.
  - apply (proj2 (date_suffix_on_critical_lines_only scenario "GDPC1"
             (snap "GDPC1" (obs "23223.906" "2024-04-01") (obs "23400.1" "2024-01-01"))
             Hnd (or_intror (or_intror (or_introl eq_refl))) eq_refl) eq_refl).
    vm_compute. reflexivity.
Defined.

(** C4 as stated fails for the important group: the entry for GDP has a
    latest date that [strptime] accepts, and its line carries no date. *)
Lemma important_line_has_no_date :
  let data := snap "GDPC1" (obs "23223.906" "2024-04-01") (obs "23400.1" "2024-01-01") in
  importance (info data) = "important"
  /\ option_map Strptime.strftime_md (Strptime.strptime_Ymd "2024-04-01") = Some "04/01"
  /\ body_lines [("GDPC1", data)] = [("GDPC1", nl ++ "- GDP: 23223.906% 📉 -176.19")]
  /\ body_lines [("GDPC1", data)]
       <> [("GDPC1", nl ++ "- GDP: 23223.906% 📉 -176.19 (04/01)")].
Proof.
  cbv zeta. repeat split; try (vm_compute; reflexivity).
  vm_compute. discriminate.
Qed.

(** C5. An entry whose latest value is the missing-value token gets no
    line: both loop bodies skip it, and no line of either group is for
    its series. *)
Theorem missing_token_is_skipped (d : dict) (k : string) (data : snapshot) :
  NoDup (keys d) -> In (k, data) d -> latest_value data = Some "." ->
  critical_line data = None
  /\ important_line data = None
  /\ ~ In k (map fst (critical_lines d))
  /\ ~ In k (map fst (important_lines d))
  /\ ~ In k (map fst (body_lines d)).
Proof.
  intros Hnd Hin Hdot.
  pose proof (shown_not_missing data Hdot) as Hs.
  assert (Hc : critical_line data = None) by (unfold critical_line; now rewrite Hs).
  assert (Hi : important_line data = None) by (unfold important_line; now rewrite Hs).
  assert (Hbody : ~ In k (map fst (body_lines d))).
  { intros H. apply in_map_iff in H. destruct H as ([k' l] & Hk & Hl).
    cbn in Hk. subst k'.
    apply (body_line_of d k data l Hnd Hin) in Hl.
    destruct Hl as [[_ H] | [_ H]]; congruence. }
  repeat split; try assumption.
  - intros H. apply Hbody. unfold body_lines. rewrite map_app, in_app_iff. now left.
  - intros H. apply Hbody. unfold body_lines. rewrite map_app, in_app_iff. now right.
Qed.

Lemma missing_token_is_skipped_witness :
  ~ In "CPIAUCSL" (map fst (body_lines scenario)).
Proof.
  assert (Hnd : NoDup (keys scenario)) by (cbn; solve_nodup).
  apply (missing_token_is_skipped scenario "CPIAUCSL"
           (snap "CPIAUCSL" (obs "." "2024-08-01") (obs "3.2" "2024-07-01"))
           Hnd (or_intror (or_introl eq_refl)) eq_refl).
Defined.

(** The scenario rendered on Wednesday 2024-08-07 at 07:30 (UTC+9). *)
Example render_scenario :
  render (Time.fromtimestamp wed_0730 Time.KST) scenario =
    "🇺🇸 <b>미국 경제지표 브리핑</b>" ++ nl
    ++ "📅 2024년 08월 07일 발송" ++ nl
    ++ nl
    ++ "<b>📊 주요 지표:</b>" ++ nl
    ++ "- <b>실업률</b>: 4.3% 📈 +0.20 (08/01)" ++ nl
    ++ nl
    ++ "<b>📈 기타 지표:</b>" ++ nl
    ++ "- GDP: 23223.906% 📉 -176.19" ++ nl
    ++ nl
    ++ "<b>📊 브리핑 요약:</b>" ++ nl
    ++ "최신 미국 경제지표를 확인하세요." ++ nl
    ++ nl
    ++ "⏰ 07:30 (KST) 발송" ++ nl
    ++ "🔄 다음 브리핑: 내일 오전 7:30".
Proof. vm_compute. reflexivity. Qed.

(** ** Runs in closed form *)

Lemma world_eq (w : world) (n : nat) (tr : list event) :
  tick w = n -> trace w = tr -> w = mk_world n tr.
Proof. destruct w; cbn; intros -> ->; reflexivity. Qed.

Lemma get_fred_data_run (series_id : string) (o : oracle) (w : world) :
  get_fred_data series_id o w =
    (Ok (PyList (map Object (observations_of (fred o (tick w) series_id)))),
     mk_world (S (tick w))
       (trace w ++ Got series_id (FRED_API_KEY o)
          :: fred_log series_id (fred o (tick w) series_id))).
Proof.
  unfold get_fred_data, try_except, bind, requests_get, json_observations, print, ret,
    observations_of, fred_log, served, status_of, ask, log.
  cbn [in_schema schema odd].
  destruct (fred o (tick w) series_id) as [e | resp]; cbn [tick trace map].
  - now rewrite <- app_assoc.
  - destruct (status_code resp =? 200); cbn [tick trace map].
    + destruct (json resp) as [e | [l |]]; cbn [tick trace map]; try reflexivity.
      now rewrite <- app_assoc.
    + now rewrite <- app_assoc.
Qed.

(** On a list of objects, lines 107 to 117 build the dictionary of the
    first two. *)
Lemma entry_of_objects (i : indicator) (l : list observation) :
  entry i (PyList (map Object l))
  = Ok (match l with
        | latest :: older => Some (snapshot_of i latest older)
        | [] => None
        end).
Proof. destruct l as [| latest [| p rest]]; reflexivity. Qed.

Lemma dict_set_fresh (k : string) (v : snapshot) (d : dict) :
  ~ In k (keys d) -> dict_set k v d = (d ++ [(k, v)])%list.
Proof.
  unfold keys. induction d as [| [k' v'] rest IH]; cbn [dict_set map fst In app]; intros H.
  - reflexivity.
  - destruct (String.eqb_spec k' k) as [-> | Hne].
    + exfalso. apply H. now left.
    + rewrite IH; [reflexivity | tauto].
Qed.

Lemma collect_run (defs : list (string * indicator)) :
  forall (acc : dict) (o : oracle) (w : world),
    NoDup (keys acc ++ map fst defs) ->
    collect defs acc o w =
      (Ok (acc ++ fetched o (tick w) defs)%list,
       mk_world (tick w + List.length defs) (trace w ++ fetch_events o (tick w) defs)).
Proof.
  induction defs as [| [k i] rest IH]; intros acc o w Hnd; cbn [collect fetched fetch_events].
  - unfold ret. rewrite !app_nil_r. cbn [List.length]. rewrite Nat.add_0_r.
    destruct w; reflexivity.
  - unfold bind at 1. unfold print at 1. cbv beta iota.
    unfold bind at 1. rewrite get_fred_data_run. cbv beta iota.
    unfold bind at 1, lift at 1. rewrite entry_of_objects.
    cbn [map fst] in Hnd.
    unfold log. cbn [tick trace].
    destruct (observations_of (fred o (tick w) k)) as [| latest older].
    + rewrite IH by (eapply NoDup_remove_1; exact Hnd).
      cbn [tick trace List.length]. f_equal.
      apply (f_equal2 mk_world); [lia | now rewrite <- !app_assoc].
    + rewrite dict_set_fresh.
      2: { apply NoDup_remove_2 in Hnd. intros Hin. apply Hnd.
           rewrite in_app_iff. now left. }
      rewrite IH.
      2: { unfold keys in *. rewrite map_app, <- app_assoc. exact Hnd. }
      cbn [tick trace List.length]. rewrite <- !app_assoc. cbn [app].
      f_equal. apply (f_equal2 mk_world); [lia | reflexivity].
Qed.

Lemma get_latest_indicators_run (o : oracle) (w : world) :
  get_latest_indicators o w =
    (Ok (fetched o (tick w) ECONOMIC_INDICATORS),
     mk_world (tick w + 5)
       (trace w ++ fetch_events o (tick w) ECONOMIC_INDICATORS)).
Proof.
  unfold get_latest_indicators. rewrite collect_run; [reflexivity |].
  cbn. solve_nodup.
Qed.

Lemma send_telegram_message_run (message : string) (o : oracle) (w : world) :
  send_telegram_message message o w =
    (Ok (delivered (telegram o (tick w) message)),
     mk_world (S (tick w)) (trace w ++ sent o (tick w) message)).
Proof.
  unfold send_telegram_message, try_except, bind, getenv, requests_post, print, ret,
    delivered, sent, telegram_line, telegram_url, of_outcome, ask, log.
  cbn [in_schema schema].
  destruct (telegram o (tick w) message) as [e | resp]; cbn [tick trace].
  - now rewrite <- app_assoc.
  - destruct (status_code resp =? 200); cbn [tick trace]; now rewrite <- app_assoc.
Qed.

Lemma format_economic_briefing_run (d : dict) (o : oracle) (w : world) :
  format_economic_briefing d o w = (Ok (render (korean o (tick w)) d), ask w).
Proof. reflexivity. Qed.

Lemma send_economic_briefing_run (o : oracle) (w : world) :
  send_economic_briefing o w = (Ok tt, after_cycle o w).
Proof.
  unfold send_economic_briefing, after_cycle.
  unfold bind at 1. unfold get_korean_time at 1, datetime_now at 1. cbv beta iota.
  unfold bind at 1. rewrite should_send_briefing_run.
  unfold business_day, at_0730, korean. cbn [ask tick trace plus].
  destruct (Time.weekday _ <? 5); cbv beta iota.
  2: { cbn [negb]. unfold ret, log. reflexivity. }
  destruct (_ && _); cbn [negb]; cbv beta iota.
  2: { reflexivity. }
  unfold bind at 1. unfold print at 1. cbv beta iota.
  unfold bind at 1. rewrite get_latest_indicators_run.
  unfold log, ask. cbn [tick trace]. cbv beta iota.
  destruct (fetched o (S (S (S (tick w)))) ECONOMIC_INDICATORS) as [| e d'] eqn:Ed.
  - unfold print, log. cbn [tick trace]. f_equal.
    apply (f_equal2 mk_world); [lia | now rewrite <- !app_assoc].
  - unfold bind at 1. rewrite format_economic_briefing_run. cbv beta iota.
    unfold bind at 1. rewrite send_telegram_message_run. cbv beta iota.
    unfold ask. cbn [tick trace].
    replace (S (S (S (tick w))) + 5)%nat with (S (S (S (S (S (S (S (S (tick w)))))))))
      by lia.
    destruct (delivered _); unfold print, log; cbn [tick trace]; f_equal;
      apply (f_equal2 mk_world); try lia; now rewrite <- !app_assoc.
Qed.

(** ** Order of the lines *)

Section SubseqFacts.

Context {A B : Type}.

Lemma Subseq_nil_l (l : list A) : Subseq [] l.
Proof. induction l; constructor; assumption. Qed.

Lemma Subseq_refl (l : list A) : Subseq l l.
Proof. induction l; constructor; assumption. Qed.

Lemma Subseq_filter_l (p : A -> bool) (l : list A) : Subseq (filter p l) l.
Proof.
  induction l as [| x l IH]; cbn [filter]; [constructor |].
  destruct (p x); constructor; assumption.
Qed.

Lemma Subseq_filter (p : A -> bool) (l1 l2 : list A) :
  Subseq l1 l2 -> Subseq (filter p l1) (filter p l2).
Proof.
  induction 1 as [| x l1 l2 _ IH | x l1 l2 _ IH]; cbn [filter].
  - constructor.
  - destruct (p x); [constructor |]; assumption.
  - destruct (p x); [constructor |]; assumption.
Qed.

Lemma Subseq_map (f : A -> B) (l1 l2 : list A) :
  Subseq l1 l2 -> Subseq (map f l1) (map f l2).
Proof.
  induction 1; cbn [map];
    [apply Subseq_nil | apply Subseq_skip | apply Subseq_keep]; assumption.
Qed.

Lemma Subseq_app (l1 l2 l3 l4 : list A) :
  Subseq l1 l2 -> Subseq l3 l4 -> Subseq (l1 ++ l3) (l2 ++ l4).
Proof.
  induction 1 as [| x l1 l2 _ IH | x l1 l2 _ IH]; intros H34; cbn [app].
  - exact H34.
  - apply Subseq_skip, IH, H34.
  - apply Subseq_keep, IH, H34.
Qed.

Lemma Subseq_trans (l1 l2 l3 : list A) :
  Subseq l1 l2 -> Subseq l2 l3 -> Subseq l1 l3.
Proof.
  intros H12 H23. revert l1 H12.
  induction H23 as [| x l2 l3 _ IH | x l2 l3 _ IH]; intros l1 H12.
  - exact H12.
  - constructor. apply IH, H12.
  - inversion H12; subst; constructor; apply IH; assumption.
Qed.

Lemma filter_map_swap (f : A -> B) (p : B -> bool) (l : list A) :
  filter p (map f l) = map f (filter (fun x => p (f x)) l).
Proof.
  induction l as [| x l IH]; cbn [map filter]; [reflexivity |].
  destruct (p (f x)); cbn [map]; now rewrite IH.
Qed.

End SubseqFacts.

(** An entry seen as a definition: its key and its [info]. *)
Lemma fetched_Subseq (o : oracle) (defs : list (string * indicator)) :
  forall t, Subseq (map (fun e => (fst e, info (snd e))) (fetched o t defs)) defs.
Proof.
  induction defs as [| [k i] rest IH]; intros t; cbn [fetched].
  - constructor.
  - destruct (observations_of (fred o t k)); cbn [map fst snd];
      constructor; apply IH.
Qed.

(** The lines of a group are for the entries of its tier that pass the
    guard, in the order of the dictionary. *)
Lemma keys_body_lines (d : dict) :
  map fst (body_lines d)
  = (keys (filter (lined "critical") d) ++ keys (filter (lined "important") d))%list.
Proof.
  unfold body_lines, critical_lines, important_lines. rewrite map_app.
  f_equal; apply keys_lines; intros data.
  - unfold critical_line. now destruct (shown data).
  - unfold important_line. now destruct (shown data).
Qed.

Lemma lined_Subseq (t : string) (d : dict) (defs : list (string * indicator)) :
  Subseq (map (fun e => (fst e, info (snd e))) d) defs ->
  Subseq (keys (filter (lined t) d))
         (map fst (filter (fun e => String.eqb (importance (snd e)) t) defs)).
Proof.
  intros H. unfold keys.
  apply Subseq_trans
    with (l2 := map fst (filter (fun e => String.eqb (importance (info (snd e))) t) d)).
  - apply Subseq_map.
    replace (filter (lined t) d)
      with (filter (fun e => shown (snd e))
              (filter (fun e => String.eqb (importance (info (snd e))) t) d)).
    + apply Subseq_filter_l.
    + rewrite filter_filter. reflexivity.
  - apply (Subseq_filter (fun e => String.eqb (importance (snd e)) t)) in H.
    rewrite filter_map_swap in H. cbn [snd] in H.
    apply (Subseq_map fst) in H. rewrite map_map in H. cbn [fst] in H.
    exact H.
Qed.

Lemma definition_of_static (k : string) (i : indicator) :
  In (k, i) ECONOMIC_INDICATORS -> i = definition_of k.
Proof.
  cbn. intros H.
  repeat (destruct H as [H | H]; [injection H as <- <-; reflexivity |]).
  contradiction.
Qed.

Lemma Subseq_In {A : Type} (l1 l2 : list A) (x : A) :
  Subseq l1 l2 -> In x l1 -> In x l2.
Proof.
  induction 1; cbn [In]; intros Hin; [assumption | right; auto |].
  destruct Hin; [left | right]; auto.
Qed.

(** C6, as the code has it.  For every dictionary the lines of the
    critical entries come first and those of the important entries
    after, each group in the iteration order of the dictionary; and for
    the dictionary [get_latest_indicators] returns, whatever the provider
    answers, that order is the order of the static definitions. *)
Theorem critical_then_important_in_dict_order :
  (forall d : dict,
     map fst (body_lines d)
     = (keys (filter (lined "critical") d)
          ++ keys (filter (lined "important") d))%list)
  /\ (forall (o : oracle) (w : world),
        exists (d : dict) (w' : world),
          get_latest_indicators o w = (Ok d, w')
          /\ Subseq (keys d) (map fst ECONOMIC_INDICATORS)
          /\ (forall k s, In (k, s) d -> info s = definition_of k)
          /\ Subseq (map fst (body_lines d)) (map fst ECONOMIC_INDICATORS)).
Proof.
  split; [exact keys_body_lines |].
  intros o w. rewrite get_latest_indicators_run.
  eexists. eexists. split; [reflexivity |].
  pose proof (fetched_Subseq o ECONOMIC_INDICATORS (tick w)) as Hsub.
  set (d := fetched o (tick w) ECONOMIC_INDICATORS) in *.
  split; [| split].
  - apply (Subseq_map fst) in Hsub. rewrite map_map in Hsub. exact Hsub.
  - intros k s Hin. apply definition_of_static.
    apply (Subseq_In _ _ (k, info s) Hsub).
    apply in_map_iff. exists (k, s). split; [reflexivity | exact Hin].
  - rewrite keys_body_lines.
    change (map fst ECONOMIC_INDICATORS)
      with (map fst (filter (fun e => String.eqb (importance (snd e)) "critical")
                       ECONOMIC_INDICATORS)
            ++ map fst (filter (fun e => String.eqb (importance (snd e)) "important")
                       ECONOMIC_INDICATORS))%list.
    apply Subseq_app; apply lined_Subseq; exact Hsub.
Qed.

(** C6 as stated fails on a dictionary whose insertion order is not the
    order of the definitions: payrolls inserted before the unemployment
    rate are also rendered before it. *)
Lemma lines_follow_the_dictionary_order :
  let d := [ ("PAYEMS", snap "PAYEMS" (obs "159000" "2024-08-01") (obs "158900" "2024-07-01"));
             ("UNRATE", snap "UNRATE" (obs "4.3" "2024-08-01") (obs "4.1" "2024-07-01")) ] in
  NoDup (keys d)
  /\ map fst (body_lines d) = ["PAYEMS"; "UNRATE"]
  /\ ~ Subseq (map fst (body_lines d)) (map fst ECONOMIC_INDICATORS).
Proof.
  cbv zeta. split; [cbn; solve_nodup |].
  split; [vm_compute; reflexivity |].
  replace (map fst (body_lines _)) with ["PAYEMS"; "UNRATE"] by (vm_compute; reflexivity).
  cbn [map fst ECONOMIC_INDICATORS]. intros H.
  repeat match goal with
         | H : Subseq _ (_ :: _) |- _ => inversion H; subst; clear H
         | H : Subseq (_ :: _) [] |- _ => inversion H
         end.
Qed.

(** ** Fetcher *)

Lemma failed_no_observations (r : outcome) :
  request_failed r = true -> observations_of r = [].
Proof.
  destruct r as [e | resp]; cbn; [reflexivity |].
  destruct (status_code resp =? 200); [discriminate | reflexivity].
Qed.

Lemma keys_fetched (o : oracle) (defs : list (string * indicator)) :
  forall t,
    keys (fetched o t defs)
    = map snd (filter (fun q => has_observations (answer o q))
                 (combine (seq t (List.length defs)) (map fst defs))).
Proof.
  unfold keys.
  induction defs as [| [k i] rest IH]; intros t;
    cbn [fetched List.length seq map fst combine filter]; [reflexivity |].
  unfold has_observations at 1, answer at 1. cbn [fst snd].
  destruct (observations_of (fred o t k)); cbn [map fst snd]; now rewrite IH.
Qed.

Lemma fetched_In (o : oracle) (defs : list (string * indicator)) (k : string) (s : snapshot) :
  forall t,
    In (k, s) (fetched o t defs) ->
    exists q i latest older,
      In q (combine (seq t (List.length defs)) (map fst defs))
      /\ snd q = k /\ In (k, i) defs
      /\ observations_of (answer o q) = latest :: older
      /\ s = snapshot_of i latest older.
Proof.
  induction defs as [| [k' i'] rest IH]; intros t;
    cbn [fetched List.length seq map fst combine]; [intros [] |].
  destruct (observations_of (fred o t k')) as [| latest older] eqn:E.
  - intros H. destruct (IH _ H) as (q & i & la & ol & Hq & Hk & Hi & Ho & Hs).
    exists q, i, la, ol. cbn [In]. tauto.
  - intros [H | H].
    + injection H as -> <-. exists (t, k), i', latest, older.
      cbn [In]. unfold answer. cbn [fst snd]. auto.
    + destruct (IH _ H) as (q & i & la & ol & Hq & Hk & Hi & Ho & Hs).
      exists q, i, la, ol. cbn [In]. tauto.
Qed.

(** The dictionary depends on the answers only through the observations
    [get_fred_data] draws from them. *)
Lemma fetched_ext (o1 o2 : oracle) (defs : list (string * indicator)) :
  forall t,
    (forall q, In q (combine (seq t (List.length defs)) (map fst defs)) ->
               observations_of (answer o2 q) = observations_of (answer o1 q)) ->
    fetched o2 t defs = fetched o1 t defs.
Proof.
  induction defs as [| [k i] rest IH]; intros t H;
    cbn [fetched List.length seq map fst combine] in *; [reflexivity |].
  pose proof (H (t, k) (or_introl eq_refl)) as Hk. unfold answer in Hk.
  cbn [fst snd] in Hk. rewrite Hk.
  rewrite (IH (S t)); [reflexivity |].
  intros q Hq. apply H. now right.
Qed.

Lemma fetched_all_failed (o : oracle) (defs : list (string * indicator)) :
  forall t,
    (forall q, In q (combine (seq t (List.length defs)) (map fst defs)) ->
               request_failed (answer o q) = true) ->
    fetched o t defs = [].
Proof.
  induction defs as [| [k i] rest IH]; intros t H;
    cbn [fetched List.length seq map fst combine] in *; [reflexivity |].
  pose proof (H (t, k) (or_introl eq_refl)) as Hk. unfold answer in Hk.
  cbn [fst snd] in Hk. rewrite (failed_no_observations _ Hk).
  apply IH. intros q Hq. apply H. now right.
Qed.

Lemma fred_log_prints (series_id : string) (r : outcome) :
  Forall (fun ev => is_post ev = false /\ is_sleep ev = false /\ is_get ev = false)
    (fred_log series_id r).
Proof.
  unfold fred_log. destruct r as [e | resp].
  - repeat constructor.
  - destruct (status_code resp =? 200); [destruct (json resp) |]; repeat constructor.
Qed.

Lemma filter_none {A : Type} (p : A -> bool) (l : list A) :
  Forall (fun x => p x = false) l -> filter p l = [].
Proof.
  induction 1 as [| x l Hx _ IH]; cbn [filter]; [reflexivity |].
  now rewrite Hx.
Qed.

Lemma fetch_events_quiet (o : oracle) (defs : list (string * indicator)) :
  forall t, filter is_post (fetch_events o t defs) = []
            /\ filter is_sleep (fetch_events o t defs) = [].
Proof.
  induction defs as [| [k i] rest IH]; intros t; cbn [fetch_events filter is_post is_sleep].
  - split; reflexivity.
  - rewrite !filter_app. destruct (IH (S t)) as [-> ->].
    pose proof (fred_log_prints k (fred o t k)) as Hlog.
    rewrite !filter_none, !app_nil_r; [split; reflexivity | |];
      eapply Forall_impl; try exact Hlog; cbn; tauto.
Qed.

Lemma requests_injective (t : nat) (q q' : nat * string) :
  In q (requests t) -> In q' (requests t) -> snd q = snd q' -> q = q'.
Proof.
  unfold requests. cbn [ECONOMIC_INDICATORS List.length seq map fst combine In].
  intros H H' E.
  repeat (destruct H as [H | H]; [subst q |]); try contradiction;
    repeat (destruct H' as [H' | H']; [subst q' |]); try contradiction;
    cbn [snd] in E; try reflexivity; discriminate.
Qed.

Lemma filter_length_split {A : Type} (p : A -> bool) (l : list A) :
  (List.length (filter p l) + List.length (filter (fun x => negb (p x)) l)
   = List.length l)%nat.
Proof.
  induction l as [| x l IH]; cbn [filter List.length]; [reflexivity |].
  destruct (p x); cbn [negb List.length]; lia.
Qed.

Lemma keys_fetched_requests (o : oracle) (t : nat) :
  keys (fetched o t ECONOMIC_INDICATORS)
  = map snd (filter (fun q => has_observations (answer o q)) (requests t)).
Proof. apply keys_fetched. Qed.

(** A requested series is in the dictionary exactly when its answer
    carries an observation. *)
Lemma fetched_key_iff (o : oracle) (t : nat) (q : nat * string) :
  In q (requests t) ->
  (In (snd q) (keys (fetched o t ECONOMIC_INDICATORS))
   <-> has_observations (answer o q) = true).
Proof.
  intros Hq. rewrite keys_fetched_requests, in_map_iff. split.
  - intros (q' & E & Hq'). apply filter_In in Hq'. destruct Hq' as [Hq' Hobs].
    now rewrite <- (requests_injective _ _ _ Hq' Hq E).
  - intros Hobs. exists q. split; [reflexivity |]. apply filter_In. now split.
Qed.

(** C7, as the code has it.  In every fetch cycle the dictionary holds
    exactly the series whose answer carries at least one observation, in
    the order of the requests: a series whose request failed (it raised,
    or the status is not 200) is left out, a series whose answer has
    observations is in.  When two of the five requests fail and the other
    three carry observations, the dictionary holds exactly those three,
    and the formatter returns a message whose lines are all for series of
    the dictionary. *)
Theorem fetch_keeps_series_with_observations (o : oracle) (w : world) :
  exists (d : dict) (w' : world),
    get_latest_indicators o w = (Ok d, w')
    /\ keys d = map snd (filter (fun q => has_observations (answer o q))
                           (requests (tick w)))
    /\ (forall q, In q (requests (tick w)) ->
                  request_failed (answer o q) = true -> ~ In (snd q) (keys d))
    /\ (forall q, In q (requests (tick w)) ->
                  has_observations (answer o q) = true -> In (snd q) (keys d))
    /\ (List.length (filter (fun q => request_failed (answer o q)) (requests (tick w)))
          = 2%nat ->
        (forall q, In q (requests (tick w)) ->
                   request_failed (answer o q) = false ->
                   has_observations (answer o q) = true) ->
        keys d = map snd (filter (fun q => negb (request_failed (answer o q)))
                            (requests (tick w)))
        /\ List.length d = 3%nat)
    /\ (exists (message : string) (w'' : world),
          format_economic_briefing d o w' = (Ok message, w'')
          /\ message = render (korean o (tick w')) d
          /\ forall k, In k (map fst (body_lines d)) -> In k (keys d)).
Proof.
  rewrite get_latest_indicators_run.
  eexists. eexists. split; [reflexivity |].
  pose proof (keys_fetched_requests o (tick w)) as Hkeys.
  pose proof (fetched_key_iff o (tick w)) as Hin.
  set (d := fetched o (tick w) ECONOMIC_INDICATORS) in *.
  split; [exact Hkeys |].
  split; [| split; [| split]].
  - intros q Hq Hfail Hk. apply (Hin q Hq) in Hk.
    unfold has_observations in Hk.
    now rewrite (failed_no_observations _ Hfail) in Hk.
  - intros q Hq Hobs. now apply Hin.
  - intros Htwo Hrest.
    assert (Hsame : filter (fun q => has_observations (answer o q)) (requests (tick w))
                    = filter (fun q => negb (request_failed (answer o q)))
                        (requests (tick w))).
    { apply filter_ext_in. intros q Hq.
      destruct (request_failed (answer o q)) eqn:Ef; cbn [negb].
      - unfold has_observations. now rewrite (failed_no_observations _ Ef).
      - now apply Hrest. }
    split; [now rewrite Hkeys, Hsame |].
    pose proof (filter_length_split (fun q => request_failed (answer o q))
                  (requests (tick w))) as Hsplit.
    rewrite Htwo in Hsplit.
    assert (Hlen : List.length (keys d) = 3%nat).
    { rewrite Hkeys, Hsame, length_map.
      change (List.length (requests (tick w))) with 5%nat in Hsplit. lia. }
    unfold keys in Hlen. now rewrite length_map in Hlen.
  - eexists. eexists. rewrite format_economic_briefing_run.
    split; [reflexivity |]. split; [reflexivity |].
    intros k Hk. rewrite keys_body_lines, in_app_iff in Hk.
    unfold keys in *.
    destruct Hk as [Hk | Hk]; apply in_map_iff in Hk;
      destruct Hk as (e & <- & He); apply filter_In in He;
      apply in_map; tauto.
Qed.

(** Two of five requests fail on a Wednesday at 07:30: the dictionary
    holds the other three series, in the order of the definitions. *)
Lemma fetch_keeps_series_with_observations_witness :
  exists (d : dict) (w' : world),
    get_latest_indicators (two_down wed_0730) initial = (Ok d, w')
    /\ keys d = ["UNRATE"; "PAYEMS"; "GDPC1"]
    /\ List.length d = 3%nat.
Proof.
  destruct (fetch_keeps_series_with_observations (two_down wed_0730) initial)
    as (d & w' & Hrun & Hkeys & _ & _ & Htwo & _).
  exists d, w'. split; [exact Hrun |].
  split; [exact Hkeys |].
  apply Htwo.
  - vm_compute. reflexivity.
  - cbn. intros q H.
    repeat (destruct H as [H | H]; [subst q; vm_compute; intros E; congruence |]).
    contradiction.
Defined.

(** C7 as stated fails when a request succeeds with status 200 and the
    answer holds no observation: the series is left out all the same. *)
Lemma answered_series_without_observations_is_left_out :
  request_failed (answer (one_empty wed_0730) (0%nat, "UNRATE")) = false
  /\ In (0%nat, "UNRATE") (requests (tick initial))
  /\ exists (d : dict) (w' : world),
       get_latest_indicators (one_empty wed_0730) initial = (Ok d, w')
       /\ keys d = ["CPIAUCSL"; "PAYEMS"; "GDPC1"; "RRSFS"]
       /\ ~ In "UNRATE" (keys d).
Proof.
  split; [vm_compute; reflexivity |].
  split; [left; reflexivity |].
  eexists. eexists. split; [vm_compute; reflexivity |].
  split; [reflexivity |].
  cbn. intuition discriminate.
Qed.

(** C10. A series answered with status 200 and an empty or missing
    [observations] list is left out of the dictionary, and the dictionary
    is the one any other answers with the same observations give, a
    failed request among them; every entry of the dictionary is built
    from the first observation of its series' answer. *)
Theorem empty_observations_are_left_out (o : oracle) (w : world) :
  exists (d : dict) (w' : world),
    get_latest_indicators o w = (Ok d, w')
    /\ (forall q resp,
          In q (requests (tick w)) ->
          answer o q = Replied resp -> status_code resp = 200 ->
          json resp = Doc None \/ json resp = Doc (Some []) ->
          ~ In (snd q) (keys d))
    /\ (forall o2 : oracle,
          (forall q, In q (requests (tick w)) ->
                     observations_of (answer o2 q) = observations_of (answer o q)) ->
          fst (get_latest_indicators o2 w) = Ok d)
    /\ (forall k s,
          In (k, s) d ->
          exists q latest older,
            In q (requests (tick w)) /\ snd q = k
            /\ observations_of (answer o q) = latest :: older
            /\ s = snapshot_of (definition_of k) latest older
            /\ latest_value s = obs_value latest
            /\ latest_date s = obs_date latest).
Proof.
  rewrite get_latest_indicators_run.
  eexists. eexists. split; [reflexivity |].
  split; [| split].
  - intros q resp Hq Ha Hs Hj Hk.
    apply (fetched_key_iff o (tick w) q Hq) in Hk.
    unfold has_observations, observations_of in Hk. rewrite Ha, Hs in Hk.
    cbn in Hk. destruct Hj as [Hj | Hj]; rewrite Hj in Hk; discriminate.
  - intros o2 Hsame. rewrite get_latest_indicators_run. cbn [fst].
    f_equal. apply fetched_ext. exact Hsame.
  - intros k s Hks.
    destruct (fetched_In _ _ _ _ _ Hks) as (q & i & latest & older & Hq & Hk & Hi & Ho & Hs).
    exists q, latest, older.
    rewrite (definition_of_static k i Hi) in Hs.
    repeat split; try assumption; subst s; reflexivity.
Qed.

(** ** No delivery without data *)

Lemma posts_app (w : world) (n : nat) (evs : list event) :
  posts (mk_world n (trace w ++ evs)) = (posts w ++ filter is_post evs)%list.
Proof. unfold posts. cbn [trace]. apply filter_app. Qed.

Lemma sleeps_app (w : world) (n : nat) (evs : list event) :
  sleeps (mk_world n (trace w ++ evs)) = (sleeps w ++ filter is_sleep evs)%list.
Proof. unfold sleeps. cbn [trace]. apply filter_app. Qed.

(** C8.  When each of the five requests of a cycle fails, the fetch of
    the cycle returns an empty dictionary and the call of
    [send_economic_briefing] returns without any POST.  If the gate let
    the cycle start, its events are the announcement, the five requests
    with their log lines and the line saying that no data could be
    fetched; the oracle was asked eight times (three clock reads, five
    requests), so the clock read of the formatter and the request of the
    notifier did not happen.  The five requests of a cycle started in [w]
    are those of [requests (3 + tick w)], after the three clock reads. *)
Theorem no_delivery_when_every_series_fails (o : oracle) (w : world) :
  (forall q, In q (requests (3 + tick w)) -> request_failed (answer o q) = true) ->
  fst (get_latest_indicators o (ask (ask (ask w)))) = Ok []
  /\ exists w' : world,
       send_economic_briefing o w = (Ok tt, w')
       /\ posts w' = posts w
       /\ (fst (should_send_briefing o (ask w)) = Ok true ->
           tick w' = (8 + tick w)%nat
           /\ trace w'
              = (trace w
                   ++ Printed ("📊 경제지표 브리핑 준비 중... "
                                 ++ Time.strftime_HMS (korean o (tick w)))
                   :: fetch_events o (3 + tick w) ECONOMIC_INDICATORS
                   ++ [Printed "❌ 경제지표 데이터를 가져올 수 없습니다."])%list).
Proof.
  intros Hfail.
  pose proof (fetched_all_failed o ECONOMIC_INDICATORS (3 + tick w) Hfail) as Hnone.
  split.
  - rewrite get_latest_indicators_run. cbn [fst ask tick]. f_equal. exact Hnone.
  - exists (after_cycle o w). split; [apply send_economic_briefing_run |].
    rewrite should_send_briefing_run. cbn [ask tick].
    unfold after_cycle.
    fold (korean o (S (tick w))). fold (korean o (S (S (tick w)))).
    fold (business_day o (S (tick w))).
    change (S (tick w)) with (1 + tick w)%nat.
    change (S (1 + tick w)) with (2 + tick w)%nat.
    fold (at_0730 o (2 + tick w)).
    rewrite Hnone.
    destruct (business_day o (1 + tick w)).
    + destruct (at_0730 o (2 + tick w)); cbn [fst].
      * split.
        -- rewrite posts_app, filter_app. cbn [filter is_post].
           rewrite (proj1 (fetch_events_quiet o ECONOMIC_INDICATORS _)).
           now rewrite app_nil_r.
        -- intros _. split; reflexivity.
      * split; [reflexivity | discriminate].
    + cbn [fst]. split; [| discriminate].
      rewrite posts_app. cbn [filter is_post]. now rewrite app_nil_r.
Qed.

(** The provider is down for the five requests of the cycle only. *)
Lemma no_delivery_when_every_series_fails_witness :
  exists w' : world,
    send_economic_briefing (down_for_one_cycle wed_0730) initial = (Ok tt, w')
    /\ posts w' = []
    /\ tick w' = 8%nat.
Proof.
  destruct (no_delivery_when_every_series_fails (down_for_one_cycle wed_0730) initial)
    as (_ & w' & Hrun & Hposts & Hgate).
  - cbn. intros q H.
    repeat (destruct H as [H | H]; [subst q; reflexivity |]). contradiction.
  - exists w'. split; [exact Hrun |]. split; [exact Hposts |].
    apply Hgate. vm_compute. reflexivity.
Defined.

(** ** Notifier and scheduler loop *)

Lemma after_cycle_sleeps (o : oracle) (w : world) :
  sleeps (after_cycle o w) = sleeps w.
Proof.
  unfold after_cycle.
  destruct (business_day o (1 + tick w)).
  - destruct (at_0730 o (2 + tick w)); [| reflexivity].
    destruct (fetched o (3 + tick w) ECONOMIC_INDICATORS);
      rewrite sleeps_app, !filter_app; cbn [filter is_sleep sent];
      rewrite (proj2 (fetch_events_quiet o ECONOMIC_INDICATORS _));
      cbn [app]; now rewrite app_nil_r.
  - rewrite sleeps_app. cbn [filter is_sleep]. now rewrite app_nil_r.
Qed.

Lemma after_cycle_posts (o : oracle) (w : world) :
  (List.length (posts (after_cycle o w)) <= S (List.length (posts w)))%nat.
Proof.
  unfold after_cycle.
  destruct (business_day o (1 + tick w)).
  - destruct (at_0730 o (2 + tick w)); [| unfold posts; cbn [trace]; lia].
    destruct (fetched o (3 + tick w) ECONOMIC_INDICATORS);
      rewrite posts_app, !filter_app; cbn [filter is_post sent];
      rewrite (proj1 (fetch_events_quiet o ECONOMIC_INDICATORS _));
      cbn [app]; rewrite length_app; cbn [List.length]; lia.
  - rewrite posts_app. cbn [filter is_post]. rewrite app_nil_r. lia.
Qed.

Lemma run_jobs_run (due : nat) (o : oracle) :
  forall w, exists w',
    run_jobs due send_economic_briefing o w = (Ok tt, w') /\ sleeps w' = sleeps w.
Proof.
  induction due as [| k IH]; intros w; cbn [run_jobs].
  - exists w. split; reflexivity.
  - unfold bind. rewrite send_economic_briefing_run.
    destruct (IH (after_cycle o w)) as (w' & Hrun & Hs).
    exists w'. split; [exact Hrun |]. now rewrite Hs, after_cycle_sleeps.
Qed.

Lemma scheduler_run (wakes : nat) (o : oracle) :
  forall w, exists w',
    scheduler wakes o w = (Ok tt, w')
    /\ List.length (sleeps w') = (List.length (sleeps w) + wakes)%nat.
Proof.
  induction wakes as [| k IH]; intros w; cbn [scheduler].
  - exists w. split; [reflexivity | lia].
  - unfold bind at 1. unfold run_pending. cbn [in_schema schema].
    destruct (run_jobs_run (pending o (tick w)) o (ask w)) as (w1 & Hjobs & Hs1).
    rewrite Hjobs.
    unfold bind at 1. unfold time_sleep at 1. cbv beta iota.
    destruct (IH (log (Slept 60) w1)) as (w' & Hrun & Hs).
    exists w'. split; [exact Hrun |].
    rewrite Hs. unfold log, sleeps in *. cbn [trace] in *.
    rewrite filter_app, length_app, Hs1. cbn [filter is_sleep List.length ask trace]. lia.
Qed.

(** C9.  [send_telegram_message] returns [True] exactly when the POST is
    answered with status 200.  Whatever the outcome it makes one POST,
    prints one line and returns: no exception leaves it, nothing is sent
    twice and nothing sleeps.  A call of [send_economic_briefing] always
    returns normally with at most one POST, and the scheduler loop
    completes each of its rounds, sleeping once per round. *)
Theorem delivery_succeeds_only_on_200 (message : string) (o : oracle) (w : world) :
  (exists (b : bool) (w' : world),
     send_telegram_message message o w = (Ok b, w')
     /\ (b = true <->
         exists resp, telegram o (tick w) message = Replied resp
                      /\ status_code resp = 200)
     /\ trace w'
        = (trace w
             ++ [ Posted (telegram_url o) (CHAT_ID o) message;
                  Printed (telegram_line (telegram o (tick w) message)) ])%list
     /\ tick w' = S (tick w))
  /\ (exists w' : world,
        send_economic_briefing o w = (Ok tt, w')
        /\ sleeps w' = sleeps w
        /\ (List.length (posts w') <= S (List.length (posts w)))%nat)
  /\ (forall wakes : nat,
        exists w' : world,
          scheduler wakes o w = (Ok tt, w')
          /\ List.length (sleeps w') = (List.length (sleeps w) + wakes)%nat).
Proof.
  split; [| split].
  - rewrite send_telegram_message_run. eexists. eexists.
    split; [reflexivity |]. split; [| split; reflexivity].
    unfold delivered. destruct (telegram o (tick w) message) as [e | resp].
    + split; [discriminate | intros (resp & H & _); discriminate].
    + rewrite Z.eqb_eq. split.
      * intros H. exists resp. split; [reflexivity | exact H].
      * intros (resp' & H & Hs). injection H as ->. exact Hs.
  - exists (after_cycle o w). split; [apply send_economic_briefing_run |].
    split; [apply after_cycle_sleeps | apply after_cycle_posts].
  - intros wakes. apply scheduler_run.
Qed.

(** A refused delivery on a Wednesday at 07:30: the cycle posts once,
    logs the failure and returns. *)
Example refused_delivery_is_logged :
  let r := send_economic_briefing (chat_refuses wed_0730) initial in
  fst r = Ok tt
  /\ List.length (posts (snd r)) = 1%nat
  /\ last (trace (snd r)) (Slept 0) = Printed "❌ 브리핑 전송 실패"
  /\ In (Printed "❌ 텔레그램 전송 실패: Forbidden") (trace (snd r)).
Proof.
  cbv zeta. rewrite send_economic_briefing_run. cbn [fst snd].
  repeat split; vm_compute; try reflexivity.
  repeat match goal with
         | |- _ \/ _ => first [left; reflexivity | right]
         end.
Qed.

(** ** Process entry *)

Lemma bind_run {A B : Type} (m : M A) (k : A -> M B) (o : oracle) (w w' : world) (a : A) :
  m o w = (Ok a, w') -> bind m k o w = k a o w'.
Proof. intros H. unfold bind. now rewrite H. Qed.

Lemma send_startup_message_run (o : oracle) (w : world) :
  send_startup_message o w =
    (Ok tt,
     mk_world (S (S (tick w)))
       (trace w ++ sent o (S (tick w)) (startup_message (korean o (tick w))))).
Proof.
  unfold send_startup_message.
  erewrite bind_run by reflexivity.
  erewrite bind_run by apply send_telegram_message_run.
  reflexivity.
Qed.

Ltac step :=
  erewrite bind_run;
  [| first [ apply send_startup_message_run
           | apply send_economic_briefing_run
           | apply is_business_day_run
           | reflexivity ] ].

(** With the three secrets set, the startup block sends the startup
    message and then makes one ordinary call of
    [send_economic_briefing]. *)
Lemma startup_run (o : oracle) :
  secrets_present o = true ->
  startup o initial = (Ok tt, after_cycle o (before_first_cycle o)).
Proof.
  unfold secrets_present. intros Hs.
  unfold startup. do 11 step. cbn [in_schema schema]. rewrite Hs. do 2 step.
  rewrite send_economic_briefing_run.
  unfold before_first_cycle, banner, business_day, korean, log, ask, initial.
  cbn [tick trace app]. reflexivity.
Qed.

Lemma fetch_events_gets (o : oracle) (defs : list (string * indicator)) :
  forall t,
    filter is_get (fetch_events o t defs)
    = map (fun e => Got (fst e) (FRED_API_KEY o)) defs.
Proof.
  induction defs as [| [k i] rest IH]; intros t;
    cbn [fetch_events filter is_get map fst]; [reflexivity |].
  rewrite filter_app, IH.
  rewrite filter_none; [reflexivity |].
  eapply Forall_impl; [| apply fred_log_prints]. cbn. tauto.
Qed.

(** C1, as the code has it.  With the three secrets set the process sends
    the startup message, announces a test briefing and calls
    [send_economic_briefing], which asks the clock gate like every other
    cycle: when the gate says no, nothing is fetched and the startup
    message is the only POST; the five requests are made only when the
    gate says yes. *)
Theorem startup_cycle_is_gated (o : oracle) :
  secrets_present o = true ->
  exists w' : world,
    startup o initial = (Ok tt, w')
    /\ In (Printed "🚀 테스트 브리핑을 전송합니다...") (trace w')
    /\ (fst (should_send_briefing o (ask (before_first_cycle o))) = Ok false ->
        gets w' = []
        /\ posts w'
           = [Posted (telegram_url o) (CHAT_ID o) (startup_message (korean o 2))])
    /\ (fst (should_send_briefing o (ask (before_first_cycle o))) = Ok true ->
        gets w' = map (fun e => Got (fst e) (FRED_API_KEY o)) ECONOMIC_INDICATORS).
Proof.
  intros Hs. exists (after_cycle o (before_first_cycle o)).
  split; [apply startup_run, Hs |].
  rewrite should_send_briefing_run.
  unfold after_cycle. cbn [ask tick before_first_cycle plus].
  fold (korean o 5) (korean o 6). fold (business_day o 5) (at_0730 o 6).
  assert (Hin : forall n evs,
            In (Printed "🚀 테스트 브리핑을 전송합니다...")
              (trace (mk_world n (trace (before_first_cycle o) ++ evs)))).
  { intros n evs. cbn [trace]. apply in_or_app. left.
    unfold before_first_cycle. cbn [trace]. apply in_or_app. right.
    apply in_or_app. right. left. reflexivity. }
  destruct (business_day o 5).
  - destruct (at_0730 o 6); cbn [fst].
    + split.
      * destruct (fetched o 7 ECONOMIC_INDICATORS); apply Hin.
      * split; [discriminate |]. intros _.
        destruct (fetched o 7 ECONOMIC_INDICATORS);
          unfold gets; cbn [trace]; rewrite !filter_app;
          cbn [filter is_get sent banner app];
          rewrite fetch_events_gets; cbn [app]; now rewrite ?app_nil_r.
    + split; [| split; [intros _; split; reflexivity | discriminate]].
      rewrite <- (app_nil_r (trace (before_first_cycle o))). apply (Hin 7%nat []).
  - cbn [fst]. split; [apply Hin |].
    split; [| discriminate]. intros _.
    unfold gets, posts. cbn [trace]. rewrite !filter_app.
    split; reflexivity.
Qed.

(** A start on Wednesday 2024-08-07 at 10:15 (UTC+9), every secret set and
    both providers answering: the startup message is posted and the
    provider is never asked. *)
Lemma startup_cycle_is_gated_witness :
  let o := steady wed_1015 (fun _ => two_observations) ok_reply in
  exists w' : world,
    startup o initial = (Ok tt, w')
    /\ gets w' = []
    /\ posts w' = [Posted (telegram_url o) (CHAT_ID o) (startup_message (korean o 2))].
Proof.
  cbv zeta.
  destruct (startup_cycle_is_gated (steady wed_1015 (fun _ => two_observations) ok_reply))
    as (w' & Hrun & _ & Hclosed & _).
  - reflexivity.
  - exists w'. split; [exact Hrun |]. apply Hclosed. vm_compute. reflexivity.
Defined.

(* ===================================================================== *)
(** * Further properties of the program *)
(* ===================================================================== *)

(** ** The clock gate over time *)

Lemma at_0730_window (sod : Z) :
  0 <= sod < 86400 ->
  (sod / 3600 = 7 /\ (sod mod 3600) / 60 = 30 <-> 27000 <= sod < 27060).
Proof.
  intros Hsod.
  pose proof (Z.div_mod sod 3600 ltac:(lia)) as E1.
  pose proof (Z.mod_pos_bound sod 3600 ltac:(lia)) as B1.
  pose proof (Z.div_mod (sod mod 3600) 60 ltac:(lia)) as E2.
  pose proof (Z.mod_pos_bound (sod mod 3600) 60 ltac:(lia)) as B2.
  split.
  - intros [Hh Hm]. rewrite Hh in E1. rewrite Hm in E2. lia.
  - intros Hw.
    assert (Hh : sod / 3600 = 7).
    { symmetry. apply (Z.div_unique sod 3600 7 (sod - 25200)); lia. }
    split; [exact Hh |].
    rewrite Hh in E1.
    symmetry. apply (Z.div_unique (sod mod 3600) 60 30 (sod - 27000)); lia.
Qed.

(** The gate is open during the whole minute 07:30:00 to 07:30:59 of a
    weekday and at no other second: it compares hour and minute only and
    keeps no record of having fired. *)
Theorem gate_is_open_for_sixty_seconds (o : oracle) (w : world) (now : Z) :
  clock o (tick w) = now ->
  clock o (S (tick w)) = now ->
  let korean_time := Time.fromtimestamp now Time.KST in
  fst (should_send_briefing o w) = Ok true
  <-> Time.weekday korean_time < 5
      /\ 27000 <= Time.second_of_day korean_time < 27060.
Proof.
  intros H1 H2 korean_time.
  rewrite should_send_briefing_run, H1, H2. fold korean_time.
  rewrite <- at_0730_window
    by (unfold Time.second_of_day; apply Z.mod_pos_bound; lia).
  fold (Time.hour korean_time). fold (Time.minute korean_time).
  destruct (Z.ltb_spec (Time.weekday korean_time) 5) as [Hlt | Hge]; cbn [fst].
  - destruct (Z.eqb_spec (Time.hour korean_time) 7) as [Hh | Hh];
      destruct (Z.eqb_spec (Time.minute korean_time) 30) as [Hm | Hm];
      cbn [andb]; split; intros H; try tauto; try discriminate;
      try (exfalso; tauto).
    all: split; [exact Hlt | split; assumption].
  - split; [discriminate | lia].
Qed.

Lemma gate_is_open_for_sixty_seconds_witness :
  fst (should_send_briefing (steady (wed_0730 + 59) (fun _ => ok_reply) ok_reply) initial)
    = Ok true.
Proof.
  apply (proj2 (gate_is_open_for_sixty_seconds
                  (steady (wed_0730 + 59) (fun _ => ok_reply) ok_reply) initial
                  (wed_0730 + 59) eq_refl eq_refl)).
  vm_compute. repeat split; congruence.
Defined.

(** When the clock advances between the two readings of the gate by less
    than seven and a half hours, the answer is the one the second
    reading alone gives: weekday, hour 7 and minute 30. *)
Theorem gate_follows_the_second_reading (o : oracle) (w : world) :
  clock o (tick w) <= clock o (S (tick w)) < clock o (tick w) + 27000 ->
  let later := korean o (S (tick w)) in
  fst (should_send_briefing o w)
  = Ok ((Time.weekday later <? 5)
        && ((Time.hour later =? 7) && (Time.minute later =? 30))).
Proof.
  intros Hgap later.
  rewrite should_send_briefing_run.
  fold (korean o (tick w)). fold (korean o (S (tick w))). fold later.
  destruct ((Time.hour later =? 7) && (Time.minute later =? 30)) eqn:E.
  - apply andb_prop in E. destruct E as [Hh Hm].
    apply Z.eqb_eq in Hh. apply Z.eqb_eq in Hm.
    pose proof (same_weekday_at_0730 _ _ Hgap Hh Hm) as Hsame.
    cbv zeta in Hsame. fold (korean o (tick w)) in Hsame.
    fold (korean o (S (tick w))) in Hsame. fold later in Hsame.
    rewrite Hsame, andb_true_r.
    destruct (Time.weekday later <? 5); reflexivity.
  - rewrite andb_false_r.
    destruct (Time.weekday (korean o (tick w)) <? 5); reflexivity.
Qed.

Lemma gate_follows_the_second_reading_witness :
  fst (should_send_briefing (ticking (wed_0730 - 1)) initial) = Ok true.
Proof.
  apply (gate_follows_the_second_reading (ticking (wed_0730 - 1)) initial).
  vm_compute. split; [discriminate | reflexivity].
Defined.

(** ** One cycle, gate closed and gate open *)

Lemma gets_app (w : world) (n : nat) (evs : list event) :
  gets (mk_world n (trace w ++ evs)) = (gets w ++ filter is_get evs)%list.
Proof. unfold gets. cbn [trace]. apply filter_app. Qed.

(** The gate a cycle started in [w] asks, in terms of the clock. *)
Lemma gate_in_cycle (o : oracle) (w : world) :
  fst (should_send_briefing o (ask w))
  = Ok (business_day o (1 + tick w) && at_0730 o (2 + tick w)).
Proof.
  rewrite should_send_briefing_run. cbn [ask tick].
  unfold business_day, at_0730, korean. cbn [plus].
  destruct (Time.weekday _ <? 5); reflexivity.
Qed.

Lemma Ok_inj {A : Type} (a b : A) : Ok a = Ok b -> a = b.
Proof. intros H. injection H as ->. reflexivity. Qed.

Lemma after_cycle_closed (o : oracle) (w : world) :
  business_day o (1 + tick w) && at_0730 o (2 + tick w) = false ->
  gets (after_cycle o w) = gets w
  /\ posts (after_cycle o w) = posts w
  /\ (trace (after_cycle o w) = trace w
      \/ trace (after_cycle o w)
         = (trace w ++ [Printed "📅 주말이므로 브리핑을 건너뜁니다."])%list).
Proof.
  unfold after_cycle. intros Hgate.
  destruct (business_day o (1 + tick w)).
  - cbn [andb] in Hgate. rewrite Hgate.
    split; [reflexivity |]. split; [reflexivity |]. left. reflexivity.
  - rewrite gets_app, posts_app. cbn [filter is_get is_post trace].
    rewrite !app_nil_r. split; [reflexivity |]. split; [reflexivity |].
    right. reflexivity.
Qed.

Lemma after_cycle_open (o : oracle) (w : world) :
  business_day o (1 + tick w) && at_0730 o (2 + tick w) = true ->
  fetched o (3 + tick w) ECONOMIC_INDICATORS <> [] ->
  tick (after_cycle o w) = (10 + tick w)%nat
  /\ gets (after_cycle o w) = (gets w ++ five_requests o)%list
  /\ posts (after_cycle o w)
     = (posts w
          ++ [Posted (telegram_url o) (CHAT_ID o)
                (render (korean o (8 + tick w))
                   (fetched o (3 + tick w) ECONOMIC_INDICATORS))])%list.
Proof.
  unfold after_cycle. intros Hgate Hdata.
  apply andb_prop in Hgate. destruct Hgate as [-> ->].
  destruct (fetched o (3 + tick w) ECONOMIC_INDICATORS) as [| e d'] eqn:Ed;
    [contradiction |].
  split; [reflexivity |].
  rewrite gets_app, posts_app, !filter_app.
  cbn [filter is_get is_post sent].
  rewrite fetch_events_gets, (proj1 (fetch_events_quiet o ECONOMIC_INDICATORS _)).
  cbn [app]. rewrite !app_nil_r. split; reflexivity.
Qed.

(** A call of [send_economic_briefing] that finds the gate closed makes no
    request at all, neither to the provider nor to the chat; it prints
    the weekend line on a Saturday or Sunday and nothing on a weekday
    outside 07:30. *)
Theorem closed_gate_makes_no_request (o : oracle) (w : world) :
  fst (should_send_briefing o (ask w)) = Ok false ->
  exists w' : world,
    send_economic_briefing o w = (Ok tt, w')
    /\ gets w' = gets w
    /\ posts w' = posts w
    /\ (trace w' = trace w
        \/ trace w' = (trace w ++ [Printed "📅 주말이므로 브리핑을 건너뜁니다."])%list).
Proof.
  rewrite gate_in_cycle. intros Hgate. apply Ok_inj in Hgate.
  exists (after_cycle o w). split; [apply send_economic_briefing_run |].
  apply after_cycle_closed, Hgate.
Qed.

Lemma closed_gate_makes_no_request_witness :
  exists w' : world,
    send_economic_briefing (steady sat_0730 (fun _ => two_observations) ok_reply) initial
      = (Ok tt, w')
    /\ gets w' = []
    /\ posts w' = [].
Proof.
  destruct (closed_gate_makes_no_request
              (steady sat_0730 (fun _ => two_observations) ok_reply) initial)
    as (w' & Hrun & Hg & Hp & _).
  - vm_compute. reflexivity.
  - exists w'. split; [exact Hrun |]. split; [exact Hg | exact Hp].
Defined.

(** A call of [send_economic_briefing] that finds the gate open and
    fetches at least one series asks the provider for the five series in
    the order of the definitions and makes one POST, whose text is the
    rendering of exactly the fetched dictionary, stamped with a clock
    reading taken after the fetch.  The secrets are not consulted. *)
Theorem open_gate_posts_the_rendered_fetch (o : oracle) (w : world) (d : dict) :
  fst (should_send_briefing o (ask w)) = Ok true ->
  fst (get_latest_indicators o (ask (ask (ask w)))) = Ok d ->
  d <> [] ->
  exists w' : world,
    send_economic_briefing o w = (Ok tt, w')
    /\ tick w' = (10 + tick w)%nat
    /\ gets w' = (gets w ++ five_requests o)%list
    /\ posts w'
       = (posts w
            ++ [Posted (telegram_url o) (CHAT_ID o)
                  (render (korean o (8 + tick w)) d)])%list.
Proof.
  rewrite gate_in_cycle, get_latest_indicators_run. cbn [fst ask tick].
  intros Hgate Hd Hne. apply Ok_inj in Hgate. apply Ok_inj in Hd.
  exists (after_cycle o w). split; [apply send_economic_briefing_run |].
  rewrite <- Hd. apply after_cycle_open; [exact Hgate |].
  change (3 + tick w)%nat with (S (S (S (tick w)))). now rewrite Hd.
Qed.

Lemma open_gate_posts_the_rendered_fetch_witness :
  exists w' : world,
    send_economic_briefing (steady wed_0730 (fun _ => two_observations) ok_reply) initial
      = (Ok tt, w')
    /\ List.length (gets w') = 5%nat
    /\ List.length (posts w') = 1%nat.
Proof.
  destruct (open_gate_posts_the_rendered_fetch
              (steady wed_0730 (fun _ => two_observations) ok_reply) initial
              (fetched (steady wed_0730 (fun _ => two_observations) ok_reply) 3
                 ECONOMIC_INDICATORS))
    as (w' & Hrun & _ & Hg & Hp).
  - vm_compute. reflexivity.
  - reflexivity.
  - vm_compute. discriminate.
  - exists w'. split; [exact Hrun |].
    rewrite Hg, Hp. split; reflexivity.
Defined.

(** Two calls in a row that both find the gate open and both fetch data
    post two briefings: nothing remembers that the briefing of this
    minute has been sent. *)
Theorem second_call_in_the_minute_posts_again (o : oracle) (w : world) :
  let w1 := snd (send_economic_briefing o w) in
  fst (should_send_briefing o (ask w)) = Ok true ->
  (exists d, fst (get_latest_indicators o (ask (ask (ask w)))) = Ok d /\ d <> []) ->
  fst (should_send_briefing o (ask w1)) = Ok true ->
  (exists d, fst (get_latest_indicators o (ask (ask (ask w1)))) = Ok d /\ d <> []) ->
  exists w2 : world,
    run_jobs 2 send_economic_briefing o w = (Ok tt, w2)
    /\ List.length (posts w2) = (List.length (posts w) + 2)%nat
    /\ List.length (gets w2) = (List.length (gets w) + 10)%nat.
Proof.
  cbv zeta. rewrite send_economic_briefing_run. cbn [snd].
  rewrite !gate_in_cycle, !get_latest_indicators_run. cbn [fst ask tick].
  intros G1 (d1 & Hd1 & N1) G2 (d2 & Hd2 & N2).
  apply Ok_inj in G1. apply Ok_inj in G2. apply Ok_inj in Hd1. apply Ok_inj in Hd2.
  exists (after_cycle o (after_cycle o w)).
  split.
  - cbn [run_jobs]. unfold bind. now rewrite !send_economic_briefing_run.
  - destruct (after_cycle_open o w G1) as (_ & Hg1 & Hp1);
      [change (3 + tick w)%nat with (S (S (S (tick w)))); now rewrite Hd1 |].
    destruct (after_cycle_open o (after_cycle o w) G2) as (_ & Hg2 & Hp2);
      [change (3 + tick (after_cycle o w))%nat
         with (S (S (S (tick (after_cycle o w))))); now rewrite Hd2 |].
    rewrite Hg2, Hp2, Hg1, Hp1, !length_app. cbn [List.length five_requests map
      ECONOMIC_INDICATORS]. split; lia.
Qed.

Lemma second_call_in_the_minute_posts_again_witness :
  exists w2 : world,
    run_jobs 2 send_economic_briefing
      (steady wed_0730 (fun _ => two_observations) ok_reply) initial = (Ok tt, w2)
    /\ List.length (posts w2) = 2%nat.
Proof.
  destruct (second_call_in_the_minute_posts_again
              (steady wed_0730 (fun _ => two_observations) ok_reply) initial)
    as (w2 & Hrun & Hp & _).
  - vm_compute. reflexivity.
  - eexists. split; [vm_compute; reflexivity | vm_compute; discriminate].
  - vm_compute. reflexivity.
  - eexists. split; [vm_compute; reflexivity | vm_compute; discriminate].
  - exists w2. split; [exact Hrun | exact Hp].
Defined.

(** ** The fetcher, request by request *)

(** [get_fred_data] on an answer outside the schema: the value is handed
    on as it is and nothing is printed. *)
Lemma get_fred_data_odd (series_id : string) (p : provider) (w : world) (v : pyvalue) :
  odd p (tick w) series_id = Some v ->
  get_fred_data series_id p w
  = (Ok v, mk_world (S (tick w))
             (trace w ++ [Got series_id (FRED_API_KEY (schema p))])).
Proof.
  intros Hodd.
  unfold get_fred_data, try_except, bind, requests_get, json_observations, served,
    status_of, ask, log.
  rewrite Hodd. reflexivity.
Qed.

(** On an answer of the schema it does what it does in the world of the
    schema. *)
Lemma get_fred_data_plain (series_id : string) (p : provider) (w : world) :
  odd p (tick w) series_id = None ->
  get_fred_data series_id p w
  = (Ok (PyList (map Object (observations_of (fred (schema p) (tick w) series_id)))),
     mk_world (S (tick w))
       (trace w ++ Got series_id (FRED_API_KEY (schema p))
          :: fred_log series_id (fred (schema p) (tick w) series_id))).
Proof.
  intros Hodd.
  unfold get_fred_data, try_except, bind, requests_get, json_observations, print, ret,
    observations_of, fred_log, served, status_of, ask, log.
  rewrite Hodd.
  destruct (fred (schema p) (tick w) series_id) as [e | resp]; cbn [tick trace map].
  - now rewrite <- app_assoc.
  - destruct (status_code resp =? 200); cbn [tick trace map].
    + destruct (json resp) as [e | [l |]]; cbn [tick trace map]; try reflexivity.
      now rewrite <- app_assoc.
    + now rewrite <- app_assoc.
Qed.

(** [get_fred_data] makes one request and never raises.  From an answer
    with status 200 and a JSON object it returns what is under
    [observations] as it is, a list or not, and prints nothing ([[]] when
    the key is missing); every other outcome (an exception, a status
    other than 200, a body that is not a JSON object) yields [[]] and one
    printed line. *)
Theorem get_fred_data_reports_failures_only
    (series_id : string) (p : provider) (w : world) :
  exists (v : pyvalue) (w' : world),
    get_fred_data series_id p w = (Ok v, w')
    /\ tick w' = S (tick w)
    /\ gets w' = (gets w ++ [Got series_id (FRED_API_KEY (schema p))])%list
    /\ (forall x,
          odd p (tick w) series_id = Some x ->
          v = x
          /\ trace w' = (trace w ++ [Got series_id (FRED_API_KEY (schema p))])%list)
    /\ (odd p (tick w) series_id = None ->
        (forall resp found,
           fred (schema p) (tick w) series_id = Replied resp ->
           status_code resp = 200 -> json resp = Doc found ->
           v = PyList (map Object (match found with Some l => l | None => [] end))
           /\ trace w' = (trace w ++ [Got series_id (FRED_API_KEY (schema p))])%list)
        /\ ((request_failed (fred (schema p) (tick w) series_id) = true
             \/ exists resp e, fred (schema p) (tick w) series_id = Replied resp
                               /\ json resp = BadBody e) ->
            v = PyList []
            /\ exists line,
                 trace w'
                 = (trace w ++ [Got series_id (FRED_API_KEY (schema p));
                                Printed line])%list)).
Proof.
  destruct (odd p (tick w) series_id) as [x |] eqn:Hodd.
  - rewrite (get_fred_data_odd series_id p w x Hodd).
    eexists. eexists. split; [reflexivity |]. split; [reflexivity |].
    split; [rewrite gets_app; reflexivity |].
    split; [| discriminate].
    intros x' E. injection E as <-. split; reflexivity.
  - rewrite (get_fred_data_plain series_id p w Hodd).
    eexists. eexists. split; [reflexivity |]. split; [reflexivity |].
    split.
    { rewrite gets_app. cbn [filter is_get]. f_equal. f_equal.
      apply filter_none. eapply Forall_impl; [| apply fred_log_prints]. cbn. tauto. }
    split; [discriminate |]. intros _.
    unfold observations_of, fred_log, request_failed.
    destruct (fred (schema p) (tick w) series_id) as [e | resp].
    + split; [intros resp found H; discriminate |].
      intros _. split; [reflexivity |]. eexists. reflexivity.
    + split.
      * intros resp' found H Hs Hj. injection H as <-.
        apply Z.eqb_eq in Hs. rewrite Hs, Hj. cbn [trace].
        destruct found; split; reflexivity.
      * intros [Hf | (resp' & e & H & Hj)].
        -- destruct (status_code resp =? 200); [discriminate |].
           split; [reflexivity |]. eexists. reflexivity.
        -- injection H as <-. rewrite Hj.
           destruct (status_code resp =? 200);
             (split; [reflexivity |]); eexists; reflexivity.
Qed.

Lemma Subseq_NoDup {A : Type} (l1 l2 : list A) :
  Subseq l1 l2 -> NoDup l2 -> NoDup l1.
Proof.
  induction 1 as [| x l1 l2 Hs IH | x l1 l2 Hs IH]; intros Hnd.
  - constructor.
  - inversion Hnd; subst. auto.
  - inversion Hnd as [| ? ? Hnot Hnd']; subst. constructor; [| auto].
    intros Hin. apply Hnot. eapply Subseq_In; eassumption.
Qed.

Lemma Subseq_length {A : Type} (l1 l2 : list A) :
  Subseq l1 l2 -> (List.length l1 <= List.length l2)%nat.
Proof. induction 1; cbn [List.length]; lia. Qed.

(** Lines 108 to 116 read from a value they accept what they read from
    the list of the observations seen in it. *)
Lemma entry_seen (i : indicator) (v : pyvalue) :
  breaks v = false -> entry i v = entry i (PyList (map Object (seen v))).
Proof.
  destruct v as [[| [l | |] [| [q | |] rest]] | | e]; cbn [breaks];
    intros H; try discriminate; reflexivity.
Qed.

Lemma entry_breaks (i : indicator) (v : pyvalue) :
  breaks v = true -> exists e, entry i v = Raise e.
Proof.
  destruct v as [[| [l | |] [| [q | |] rest]] | | e]; cbn [breaks];
    intros H; try discriminate; eexists; reflexivity.
Qed.

(** One request of [get_fred_data] in any world: a value, one more step,
    the GET and printed lines only. *)
Lemma get_fred_data_shape (series_id : string) (p : provider) (w : world) :
  exists (v : pyvalue) (logs : list event),
    get_fred_data series_id p w
    = (Ok v, mk_world (S (tick w))
               (trace w ++ Got series_id (FRED_API_KEY (schema p)) :: logs))
    /\ Forall (fun ev => is_post ev = false /\ is_sleep ev = false /\ is_get ev = false)
         logs
    /\ (forall x, odd p (tick w) series_id = Some x -> v = x)
    /\ (odd p (tick w) series_id = None -> exists l, v = PyList (map Object l)).
Proof.
  destruct (odd p (tick w) series_id) as [x |] eqn:Hodd.
  - rewrite (get_fred_data_odd series_id p w x Hodd).
    exists x, []. split; [reflexivity |]. split; [constructor |].
    split; [intros x' E; congruence | discriminate].
  - rewrite (get_fred_data_plain series_id p w Hodd).
    eexists. eexists. split; [reflexivity |]. split; [apply fred_log_prints |].
    split; [discriminate |]. intros _. eexists. reflexivity.
Qed.

(** One turn of the loop of [get_latest_indicators]. *)
Lemma collect_cons (k : string) (i : indicator) (rest : list (string * indicator))
    (acc : dict) (p : provider) (w : world) :
  collect ((k, i) :: rest) acc p w
  = match get_fred_data k p (log (Printed ("📊 " ++ name i ++ " 데이터 수집 중...")) w) with
    | (Ok v, w1) =>
        match entry i v with
        | Ok (Some data) => collect rest (dict_set k data acc) p w1
        | Ok None => collect rest acc p w1
        | Raise e => (Raise e, w1)
        end
    | (Raise e, w1) => (Raise e, w1)
    end.
Proof.
  cbn [collect]. unfold bind, print, lift.
  destruct (get_fred_data k p _) as [[v | e] w1]; [| reflexivity].
  destruct (entry i v) as [[data |] | e]; reflexivity.
Qed.

(** While the answers to the requests of the loop are accepted, the loop
    does what it does in the repaired world. *)
Lemma collect_repaired (defs : list (string * indicator)) :
  forall (acc : dict) (p : provider) (w : world),
    (forall q, In q (combine (seq (tick w) (List.length defs)) (map fst defs)) ->
               breaking p q = false) ->
    collect defs acc p w = collect defs acc (repaired p) w.
Proof.
  induction defs as [| [k i] rest IH]; intros acc p w Hok; [reflexivity |].
  rewrite !collect_cons.
  cbn [List.length seq map fst combine] in Hok.
  pose proof (Hok (tick w, k) (or_introl eq_refl)) as Hk.
  unfold breaking in Hk. cbn [fst snd] in Hk.
  assert (Hrest : forall w', tick w' = S (tick w) ->
            forall q, In q (combine (seq (tick w') (List.length rest)) (map fst rest)) ->
                      breaking p q = false).
  { intros w' Hw' q Hq. apply Hok. right. now rewrite Hw' in Hq. }
  set (w0 := log (Printed ("📊 " ++ name i ++ " 데이터 수집 중...")) w).
  assert (Ht : tick w0 = tick w) by reflexivity.
  rewrite (get_fred_data_run k (repaired p) w0).
  cbn [repaired fred FRED_API_KEY].
  rewrite Ht.
  destruct (odd p (tick w) k) as [v |] eqn:Hodd.
  - rewrite <- Ht in Hodd. rewrite (get_fred_data_odd k p w0 v Hodd).
    rewrite (entry_seen i v Hk).
    cbn [observations_of status_code json fred_log]. rewrite Z.eqb_refl.
    rewrite Ht.
    destruct (entry i (PyList (map Object (seen v)))) as [[data |] | e];
      try reflexivity; apply IH; apply Hrest; reflexivity.
  - rewrite <- Ht in Hodd. rewrite (get_fred_data_plain k p w0 Hodd).
    rewrite Ht.
    destruct (entry i _) as [[data |] | e];
      try reflexivity; apply IH; apply Hrest; reflexivity.
Qed.

Lemma get_latest_indicators_repaired (p : provider) (w : world) :
  (forall q, In q (requests (tick w)) -> breaking p q = false) ->
  get_latest_indicators p w = get_latest_indicators (repaired p) w.
Proof. intros H. apply collect_repaired. exact H. Qed.

(** The loop of [get_latest_indicators] in the world of the schema: five
    requests in the order of the definitions, no POST, distinct keys. *)
Lemma fetch_in_schema (o : oracle) (w : world) :
  exists (d : dict) (w' : world),
    get_latest_indicators o w = (Ok d, w')
    /\ tick w' = (tick w + 5)%nat
    /\ gets w' = (gets w ++ five_requests o)%list
    /\ posts w' = posts w
    /\ NoDup (keys d)
    /\ (List.length d <= 5)%nat.
Proof.
  rewrite get_latest_indicators_run. eexists. eexists. split; [reflexivity |].
  split; [reflexivity |].
  rewrite gets_app, posts_app, fetch_events_gets,
    (proj1 (fetch_events_quiet o ECONOMIC_INDICATORS _)), app_nil_r.
  split; [reflexivity |]. split; [reflexivity |].
  pose proof (fetched_Subseq o ECONOMIC_INDICATORS (tick w)) as Hsub.
  apply (Subseq_map fst) in Hsub. rewrite map_map in Hsub. cbn [fst] in Hsub.
  split.
  - apply (Subseq_NoDup _ _ Hsub). cbn. solve_nodup.
  - apply Subseq_length in Hsub. rewrite !length_map in Hsub. exact Hsub.
Qed.

(** As long as none of the five answers is one on which lines 108 to 116
    raise, [get_latest_indicators] asks for each of the five series once,
    in the order of the definitions: a failed request, an empty list or
    a null does not stop the loop.  It makes no POST, and the dictionary
    it returns has distinct keys and at most five entries. *)
Theorem fetch_asks_every_series_once (p : provider) (w : world) :
  (forall q, In q (requests (tick w)) -> breaking p q = false) ->
  exists (d : dict) (w' : world),
    get_latest_indicators p w = (Ok d, w')
    /\ tick w' = (tick w + 5)%nat
    /\ gets w' = (gets w ++ five_requests (schema p))%list
    /\ posts w' = posts w
    /\ NoDup (keys d)
    /\ (List.length d <= 5)%nat.
Proof.
  intros Hok. rewrite (get_latest_indicators_repaired p w Hok).
  exact (fetch_in_schema (repaired p) w).
Qed.

(** The provider answers null for the payrolls; the other four series are
    served. *)
Lemma fetch_asks_every_series_once_witness :
  exists (d : dict) (w' : world),
    get_latest_indicators (answering wed_0730 "PAYEMS" PyFalsy) initial = (Ok d, w')
    /\ List.length (gets w') = 5%nat
    /\ keys d = ["UNRATE"; "CPIAUCSL"; "GDPC1"; "RRSFS"].
Proof.
  destruct (fetch_asks_every_series_once (answering wed_0730 "PAYEMS" PyFalsy) initial)
    as (d & w' & Hrun & _ & Hg & _).
  - intros q H. cbn in H.
    repeat (destruct H as [H | H]; [subst q; reflexivity |]). contradiction.
  - exists d, w'. split; [exact Hrun |]. rewrite Hg.
    split; [reflexivity |].
    assert (E : fst (get_latest_indicators (answering wed_0730 "PAYEMS" PyFalsy) initial)
                = Ok d) by (rewrite Hrun; reflexivity).
    vm_compute in E. injection E as <-. reflexivity.
Defined.

(** The first element of a list that satisfies a test, with what comes
    before it. *)
Lemma first_such {A : Type} (f : A -> bool) (l : list A) (x : A) :
  In x l -> f x = true ->
  exists before y after,
    l = (before ++ y :: after)%list
    /\ f y = true
    /\ forall b, In b before -> f b = false.
Proof.
  induction l as [| a l IH]; intros Hin Hx; [destruct Hin |].
  destruct (f a) eqn:Ea.
  - exists [], a, l. repeat split; [exact Ea | intros b []].
  - destruct Hin as [-> | Hin]; [congruence |].
    destruct (IH Hin Hx) as (before & y & after & -> & Hy & Hb).
    exists (a :: before), y, after. repeat split; [exact Hy |].
    intros b [<- | Hin']; [exact Ea | apply Hb, Hin'].
Qed.

(** The loop up to the first answer on which lines 108 to 116 raise: the
    exception leaves the loop, the series after that one are not asked
    for, and nothing is posted or slept. *)
Lemma collect_breaks (defs : list (string * indicator)) :
  forall (acc : dict) (p : provider) (w : world) before q after,
    combine (seq (tick w) (List.length defs)) (map fst defs)
    = (before ++ q :: after)%list ->
    (forall b, In b before -> breaking p b = false) ->
    breaking p q = true ->
    exists (e : string) (w' : world),
      collect defs acc p w = (Raise e, w')
      /\ gets w'
         = (gets w ++ map (fun b => Got (snd b) (FRED_API_KEY (schema p)))
                        (before ++ [q]))%list
      /\ posts w' = posts w
      /\ sleeps w' = sleeps w.
Proof.
  induction defs as [| [k i] rest IH]; intros acc p w before q after Hsplit Hok Hq.
  - cbn in Hsplit. destruct before; discriminate.
  - rewrite collect_cons.
    cbn [List.length seq map fst combine] in Hsplit.
    set (w0 := log (Printed ("📊 " ++ name i ++ " 데이터 수집 중...")) w).
    assert (Ht : tick w0 = tick w) by reflexivity.
    assert (Htr : trace w0 = (trace w ++ [Printed ("📊 " ++ name i ++ " 데이터 수집 중...")])%list)
      by reflexivity.
    destruct (get_fred_data_shape k p w0) as (v & logs & Hrun & Hlogs & Hsome & Hnone).
    rewrite Hrun.
    set (w1 := mk_world (S (tick w0))
                 (trace w0 ++ Got k (FRED_API_KEY (schema p)) :: logs)).
    assert (Hquiet : gets w1 = (gets w ++ [Got k (FRED_API_KEY (schema p))])%list
                     /\ posts w1 = posts w /\ sleeps w1 = sleeps w).
    { unfold gets, posts, sleeps, w1. cbn [trace]. rewrite Htr.
      rewrite !filter_app. cbn [filter is_get is_post is_sleep].
      rewrite !(filter_none _ logs), !app_nil_r;
        [repeat split; reflexivity | | |];
        eapply Forall_impl; try exact Hlogs; cbn; tauto. }
    destruct Hquiet as (Hg1 & Hp1 & Hs1).
    destruct before as [| b before].
    + cbn [app] in Hsplit.
      assert (Eq : q = (tick w, k)) by congruence. subst q.
      unfold breaking in Hq. cbn [fst snd] in Hq. rewrite <- Ht in Hq.
      destruct (odd p (tick w0) k) as [x |] eqn:Hodd; [| discriminate].
      rewrite (Hsome x eq_refl).
      destruct (entry_breaks i x Hq) as (e & ->).
      exists e, w1. split; [reflexivity |].
      rewrite Hg1, Hp1, Hs1. cbn [app map snd]. repeat split; reflexivity.
    + cbn [app] in Hsplit.
      assert (Eb : b = (tick w, k)) by congruence. subst b.
      assert (Hsplit' : combine (seq (tick w1) (List.length rest)) (map fst rest)
                        = (before ++ q :: after)%list).
      { unfold w1. cbn [tick]. rewrite Ht. congruence. }
      pose proof (Hok (tick w, k) (or_introl eq_refl)) as Hb.
      assert (Hok' : forall b', In b' before -> breaking p b' = false)
        by (intros b' Hb'; apply Hok; now right).
      assert (Hentry : exists made, entry i v = Ok made).
      { unfold breaking in Hb. cbn [fst snd] in Hb. rewrite <- Ht in Hb.
        destruct (odd p (tick w0) k) as [x |] eqn:Hodd.
        - rewrite (Hsome x eq_refl), (entry_seen i x Hb), entry_of_objects.
          eexists. reflexivity.
        - destruct (Hnone eq_refl) as (l & ->). rewrite entry_of_objects.
          eexists. reflexivity. }
      destruct Hentry as (made & ->).
      destruct made as [data |];
        [destruct (IH (dict_set k data acc) p w1 before q after Hsplit' Hok' Hq)
           as (e & w' & Hrun' & Hg & Hp & Hs)
        | destruct (IH acc p w1 before q after Hsplit' Hok' Hq)
           as (e & w' & Hrun' & Hg & Hp & Hs)];
        exists e, w'; (split; [exact Hrun' |]);
        rewrite Hg, Hp, Hs, Hg1, Hp1, Hs1, <- app_assoc; cbn [map app fst snd];
        repeat split; reflexivity.
Qed.

(** An answer on which lines 108 to 116 raise ends the fetch: the
    exception leaves [get_latest_indicators], which has asked for the
    series up to the first such answer and for no series after it, and
    has posted nothing. *)
Theorem fetch_stops_at_the_first_malformed_answer (p : provider) (w : world)
    (q : nat * string) :
  In q (requests (tick w)) -> breaking p q = true ->
  exists (e : string) (w' : world) (before : list (nat * string))
         (first : nat * string) (after : list (nat * string)),
    get_latest_indicators p w = (Raise e, w')
    /\ requests (tick w) = (before ++ first :: after)%list
    /\ breaking p first = true
    /\ (forall b, In b before -> breaking p b = false)
    /\ gets w'
       = (gets w ++ map (fun b => Got (snd b) (FRED_API_KEY (schema p)))
                      (before ++ [first]))%list
    /\ posts w' = posts w.
Proof.
  intros Hin Hq.
  destruct (first_such (breaking p) (requests (tick w)) q Hin Hq)
    as (before & first & after & Hsplit & Hfirst & Hbefore).
  destruct (collect_breaks ECONOMIC_INDICATORS [] p w before first after Hsplit Hbefore Hfirst)
    as (e & w' & Hrun & Hg & Hp & _).
  exists e, w', before, first, after. repeat split; assumption.
Qed.

(** The provider answers [{"observations": [null]}] for the CPI: the
    unemployment rate and the CPI are asked for, the other three are
    not. *)
Lemma fetch_stops_at_the_first_malformed_answer_witness :
  exists (e : string) (w' : world),
    get_latest_indicators (answering wed_0730 "CPIAUCSL" (PyList [Falsy])) initial
    = (Raise e, w')
    /\ gets w' = [Got "UNRATE" (Some "fred-key"); Got "CPIAUCSL" (Some "fred-key")].
Proof.
  destruct (fetch_stops_at_the_first_malformed_answer
              (answering wed_0730 "CPIAUCSL" (PyList [Falsy])) initial
              (1%nat, "CPIAUCSL"))
    as (e & w' & before & first & after & Hrun & _).
  - cbn. right. left. reflexivity.
  - reflexivity.
  - exists e, w'. split; [exact Hrun |].
    assert (E : snd (get_latest_indicators
                       (answering wed_0730 "CPIAUCSL" (PyList [Falsy])) initial) = w')
      by (rewrite Hrun; reflexivity).
    rewrite <- E. vm_compute. reflexivity.
Defined.

(** A requested series whose answer has observations gets the entry built
    from the first two of them. *)
Lemma fetched_entry (o : oracle) (defs : list (string * indicator))
    (latest : observation) (older : list observation) :
  forall t q,
    In q (combine (seq t (List.length defs)) (map fst defs)) ->
    observations_of (answer o q) = latest :: older ->
    exists i, In (snd q, i) defs
              /\ In (snd q, snapshot_of i latest older) (fetched o t defs).
Proof.
  induction defs as [| [k i] rest IH]; intros t q;
    cbn [List.length seq map fst combine fetched In]; [intros [] |].
  intros [Hq | Hq] Hobs.
  - subst q. unfold answer in Hobs. cbn [fst snd] in *. rewrite Hobs.
    exists i. split; left; reflexivity.
  - destruct (IH (S t) q Hq Hobs) as (i' & Hi & Hin).
    exists i'. split; [right; exact Hi |].
    destruct (observations_of (fred o t k)); [| right]; exact Hin.
Qed.

(** A series for which the provider has a single observation gets an
    entry without previous value or date; its change is undetermined and
    its reading ends with the not-available token. *)
Theorem single_observation_reads_not_available
    (o : oracle) (w : world) (q : nat * string) (latest : observation) :
  In q (requests (tick w)) ->
  observations_of (answer o q) = [latest] ->
  exists (d : dict) (w' : world) (s : snapshot),
    get_latest_indicators o w = (Ok d, w')
    /\ In (snd q, s) d
    /\ latest_value s = obs_value latest
    /\ previous_value s = None
    /\ previous_date s = None
    /\ calculate_change (latest_value s) (previous_value s) = None
    /\ reading s
       = ": " ++ Text.show (obs_value latest)
           ++ units (definition_of (snd q)) ++ " 📊 N/A".
Proof.
  intros Hq Hobs. rewrite get_latest_indicators_run.
  destruct (fetched_entry o ECONOMIC_INDICATORS latest [] (tick w) q Hq Hobs)
    as (i & Hi & Hin).
  eexists. eexists. exists (snapshot_of i latest []).
  split; [reflexivity |]. split; [exact Hin |].
  rewrite (definition_of_static _ _ Hi).
  assert (Hc : calculate_change (obs_value latest) None = None).
  { rewrite calculate_change_numeric. cbn [numeric].
    destruct (numeric (obs_value latest)); reflexivity. }
  repeat split; try reflexivity; try exact Hc.
  unfold reading. cbn [snapshot_of hd_error latest_value previous_value info].
  rewrite Hc. reflexivity.
Qed.

Lemma single_observation_reads_not_available_witness :
  exists (d : dict) (s : snapshot),
    fst (get_latest_indicators (one_observation wed_0730) initial) = Ok d
    /\ In ("UNRATE", s) d
    /\ reading s = ": 4.3% 📊 N/A".
Proof.
  destruct (single_observation_reads_not_available
              (one_observation wed_0730) initial (0%nat, "UNRATE")
              (obs "4.3" "2024-08-01"))
    as (d & w' & s & Hrun & Hin & _ & _ & _ & _ & Hr).
  - left. reflexivity.
  - reflexivity.
  - exists d, s. rewrite Hrun. split; [reflexivity |].
    split; [exact Hin | exact Hr].
Defined.

(** ** Change and its display *)

Lemma sub_self (x : Float64.float) :
  is_number x = true -> Float64.sub x x = S754_zero false.
Proof.
  destruct x as [s | s | | s m e]; cbn [is_number]; intros H; try discriminate.
  - destruct s; reflexivity.
  - unfold Float64.sub, SFsub. cbv zeta.
    rewrite Z.min_id. unfold shl_align. rewrite !Z.sub_diag. reflexivity.
Qed.

Lemma sub_self_not_number (x : Float64.float) :
  is_number x = false -> Float64.sub x x = S754_nan.
Proof.
  destruct x as [s | s | | s m e]; cbn [is_number]; intros H; try discriminate.
  - destruct s; reflexivity.
  - reflexivity.
Qed.

(** When the latest and the previous value are the same text, the change
    is exactly zero and is shown with the unchanged arrow as 0.00; if
    that text parses to an infinity or a NaN the change is a NaN and is
    shown with the unchanged arrow as well. *)
Theorem unchanged_value_shows_flat_arrow (v : option string) (x : Float64.float) :
  numeric v = Some x ->
  (is_number x = true ->
   calculate_change v v = Some (S754_zero false)
   /\ format_change (calculate_change v v) = "➡️ 0.00")
  /\ (is_number x = false ->
      calculate_change v v = Some S754_nan
      /\ format_change (calculate_change v v) = "➡️ nan").
Proof.
  intros Hx. rewrite calculate_change_numeric, Hx. split; intros Hn.
  - rewrite (sub_self x Hn). split; reflexivity.
  - rewrite (sub_self_not_number x Hn). split; reflexivity.
Qed.

Lemma unchanged_value_shows_flat_arrow_witness :
  format_change (calculate_change (Some "4.3") (Some "4.3")) = "➡️ 0.00"
  /\ format_change (calculate_change (Some "inf") (Some "inf")) = "➡️ nan".
Proof.
  split.
  - apply (proj1 (unchanged_value_shows_flat_arrow (Some "4.3")
                    (S754_finite false 4841369599423283 (-50)) eq_refl) eq_refl).
  - apply (proj2 (unchanged_value_shows_flat_arrow (Some "inf")
                    (S754_infinity false) eq_refl) eq_refl).
Defined.

Lemma hundredths_tiny (m : positive) (e : Z) :
  e < 0 -> 200 * Z.pos m < 2 ^ (- e) -> Float64.hundredths m e = 0.
Proof.
  intros He Hsmall. unfold Float64.hundredths.
  destruct (Z.leb_spec 0 e) as [H | _]; [lia |]. cbv zeta.
  assert (Hq : 100 * Z.pos m / 2 ^ (- e) = 0) by (apply Z.div_small; lia).
  assert (Hr : (100 * Z.pos m) mod 2 ^ (- e) = 100 * Z.pos m)
    by (apply Z.mod_small; lia).
  rewrite Hq, Hr.
  destruct (Z.compare_spec (2 * (100 * Z.pos m)) (2 ^ (- e))); [lia | reflexivity | lia].
Qed.

(** A change smaller than 0.005 in magnitude keeps the arrow of its sign
    while its number is printed as zero: a small rise reads +0.00 with
    the rising arrow, a small fall reads -0.00 with the falling arrow. *)
Theorem small_change_keeps_its_arrow (s : bool) (m : positive) (e : Z) :
  e < 0 -> 200 * Z.pos m < 2 ^ (- e) ->
  format_change (Some (S754_finite s m e))
  = if s then "📉 -0.00" else "📈 +0.00".
Proof.
  intros He Hsmall. unfold format_change, Float64.gt0, Float64.lt0, Float64.format_2f.
  rewrite (hundredths_tiny m e He Hsmall).
  destruct s; reflexivity.
Qed.

Lemma small_change_keeps_its_arrow_witness :
  format_change (calculate_change (Some "4.301") (Some "4.3")) = "📈 +0.00"
  /\ format_change (calculate_change (Some "4.3") (Some "4.301")) = "📉 -0.00".
Proof.
  split.
  - change (calculate_change (Some "4.301") (Some "4.3"))
      with (Some (S754_finite false 4611686018428928 (-62))).
    apply (small_change_keeps_its_arrow false 4611686018428928 (-62));
      vm_compute; reflexivity.
  - change (calculate_change (Some "4.3") (Some "4.301"))
      with (Some (S754_finite true 4611686018428928 (-62))).
    apply (small_change_keeps_its_arrow true 4611686018428928 (-62));
      vm_compute; reflexivity.
Defined.

(** ** Sections of the briefing *)

Lemma emit_none (line : snapshot -> option string) (items : dict) :
  (forall k s, In (k, s) items -> line s = None) -> emit line items = [].
Proof.
  induction items as [| [k s] rest IH]; cbn [emit]; intros H; [reflexivity |].
  rewrite (H k s (or_introl eq_refl)). apply IH.
  intros k' s' Hin. apply (H k' s'). now right.
Qed.

(** The title of the second group depends on the entries of the tier, not
    on the lines written: when the dictionary has important entries and
    every one of them is skipped for a missing latest value, the briefing
    still carries the title of the second group, directly followed by
    the closing section. *)
Theorem important_title_without_lines (korean_time : Time.datetime) (d : dict) :
  tier "important" d <> [] ->
  (forall k s, In (k, s) (tier "important" d) -> shown s = false) ->
  important_lines d = []
  /\ render korean_time d
     = briefing_head korean_time ++ join (critical_lines d)
         ++ important_title ++ briefing_foot korean_time.
Proof.
  intros Hne Hall.
  assert (Hnone : important_lines d = []).
  { unfold important_lines. apply emit_none. intros k s Hin.
    unfold important_line. now rewrite (Hall k s Hin). }
  split; [exact Hnone |].
  unfold render, briefing_head, important_title, briefing_foot.
  rewrite Hnone.
  destruct (tier "important" d) as [| e rest]; [contradiction |].
  unfold join. cbn [map String.concat].
  rewrite !append_assoc. reflexivity.
Qed.

Lemma important_title_without_lines_witness :
  render (Time.fromtimestamp wed_0730 Time.KST) gdp_missing
  = briefing_head (Time.fromtimestamp wed_0730 Time.KST)
      ++ nl ++ "- <b>실업률</b>: 4.3% 📈 +0.20 (08/01)"
      ++ important_title
      ++ briefing_foot (Time.fromtimestamp wed_0730 Time.KST).
Proof.
  rewrite (proj2 (important_title_without_lines
                    (Time.fromtimestamp wed_0730 Time.KST) gdp_missing
                    ltac:(vm_compute; discriminate)
                    ltac:(cbn; intros k s [H | []]; injection H as <- <-; reflexivity))).
  vm_compute. reflexivity.
Defined.

(** ** The date suffix *)

Lemma digit_in_range (lo hi : Z) (c : ascii) (v : Z) :
  Strptime.digit_in lo hi c = Some v -> lo <= v <= hi.
Proof.
  unfold Strptime.digit_in. destruct (Float64.digit_of c) as [x |]; [| discriminate].
  destruct (Z.leb_spec lo x) as [H1 | H1]; destruct (Z.leb_spec x hi) as [H2 | H2];
    cbn [andb]; intros H; try discriminate. injection H as <-. lia.
Qed.

Lemma two_range (a b c d : Z) (cs : list ascii) (v : Z) (rest : list ascii) :
  In (v, rest) (Strptime.two a b c d cs) -> 10 * a + c <= v <= 10 * b + d.
Proof.
  unfold Strptime.two. destruct cs as [| x [| y tl]]; try (intros []).
  destruct (Strptime.digit_in a b x) as [p |] eqn:Ep; [| intros []].
  destruct (Strptime.digit_in c d y) as [q |] eqn:Eq; [| intros []].
  intros [H | []]. assert (Hv : 10 * p + q = v) by congruence.
  apply digit_in_range in Ep. apply digit_in_range in Eq. lia.
Qed.

Lemma one_range (a b : Z) (cs : list ascii) (v : Z) (rest : list ascii) :
  In (v, rest) (Strptime.one a b cs) -> a <= v <= b.
Proof.
  unfold Strptime.one. destruct cs as [| x tl]; [intros [] |].
  destruct (Strptime.digit_in a b x) as [p |] eqn:Ep; [| intros []].
  intros [H | []]. assert (Hv : p = v) by congruence.
  apply digit_in_range in Ep. lia.
Qed.

Lemma field_m_range (cs : list ascii) (v : Z) (rest : list ascii) :
  In (v, rest) (Strptime.field_m cs) -> 1 <= v <= 12.
Proof.
  unfold Strptime.field_m. rewrite !in_app_iff.
  intros [H | [H | H]];
    [apply two_range in H | apply two_range in H | apply one_range in H]; lia.
Qed.

Lemma field_d_range (cs : list ascii) (v : Z) (rest : list ascii) :
  In (v, rest) (Strptime.field_d cs) -> 1 <= v <= 31.
Proof.
  unfold Strptime.field_d. rewrite !in_app_iff.
  intros [H | [H | [H | [H | H]]]];
    try (apply two_range in H; lia); try (apply one_range in H; lia).
  destruct cs as [| c tl]; [destruct H |].
  destruct (Ascii.eqb_spec c " "%char) as [-> | Hne].
  - apply one_range in H. lia.
  - destruct c as [[] [] [] [] [] [] [] []]; try destruct H;
      exfalso; apply Hne; reflexivity.
Qed.

Lemma field_Y_range (cs : list ascii) (v : Z) (rest : list ascii) :
  In (v, rest) (Strptime.field_Y cs) -> 0 <= v <= 9999.
Proof.
  unfold Strptime.field_Y.
  destruct (Strptime.two 0 9 0 9 cs) as [| [hi r1] [| ? ?]] eqn:E1;
    try (intros HF; exact (match HF with end)).
  destruct (Strptime.two 0 9 0 9 r1) as [| [lo r2] [| ? ?]] eqn:E2;
    try (intros HF; exact (match HF with end)).
  intros [H | []]. assert (Hv : 100 * hi + lo = v) by congruence.
  assert (H1 : In (hi, r1) (Strptime.two 0 9 0 9 cs)) by (rewrite E1; now left).
  assert (H2 : In (lo, r2) (Strptime.two 0 9 0 9 r1)) by (rewrite E2; now left).
  apply two_range in H1. apply two_range in H2. lia.
Qed.

Lemma hd_error_In {A : Type} (l : list A) (x : A) : hd_error l = Some x -> In x l.
Proof. destruct l; cbn; [discriminate | intros H; injection H as ->; now left]. Qed.

Lemma regex_match_range (cs rest : list ascii) (y m d : Z) :
  Strptime.regex_match cs = Some (y, m, d, rest) ->
  0 <= y <= 9999 /\ 1 <= m <= 12 /\ 1 <= d <= 31.
Proof.
  unfold Strptime.regex_match. intros H. apply hd_error_In in H.
  apply in_flat_map in H. destruct H as ([y' r1] & HY & H).
  apply in_flat_map in H. destruct H as (r2 & _ & H).
  apply in_flat_map in H. destruct H as ([m' r3] & HM & H).
  apply in_flat_map in H. destruct H as (r4 & _ & H).
  apply in_map_iff in H. destruct H as ([d' r5] & E & HD).
  injection E as -> -> -> _.
  apply field_Y_range in HY. apply field_m_range in HM. apply field_d_range in HD.
  tauto.
Qed.

Lemma days_in_month_max (y m : Z) : Time.days_in_month y m <= 31.
Proof.
  unfold Time.days_in_month.
  destruct (m =? 2); [destruct (Time.is_leap y); lia |].
  destruct ((m =? 4) || (m =? 6) || (m =? 9) || (m =? 11)); lia.
Qed.

(** [strptime] returns calendar dates only. *)
Lemma strptime_Ymd_range (s : string) (y m d : Z) :
  Strptime.strptime_Ymd s = Some (y, m, d) ->
  1 <= y <= 9999 /\ 1 <= m <= 12 /\ 1 <= d <= Time.days_in_month y m.
Proof.
  unfold Strptime.strptime_Ymd.
  destruct (Strptime.regex_match (list_ascii_of_string s))
    as [[[[y' m'] d'] [| c rest]] |] eqn:E; try discriminate.
  apply regex_match_range in E.
  destruct (Z.leb_spec 1 y') as [H1 | H1];
    destruct (Z.leb_spec d' (Time.days_in_month y' m')) as [H2 | H2];
    cbn [andb]; intros H; try discriminate.
  injection H as <- <- <-. lia.
Qed.

Lemma pad2_length (n : Z) : 0 <= n <= 99 -> String.length (Text.pad2 n) = 2%nat.
Proof.
  intros Hn.
  assert (Hall : forallb (fun k => Nat.eqb (String.length (Text.pad2 (Z.of_nat k))) 2)
                   (seq 0 100) = true) by (vm_compute; reflexivity).
  rewrite forallb_forall in Hall.
  specialize (Hall (Z.to_nat n)). rewrite Z2Nat.id in Hall by lia.
  apply Nat.eqb_eq, Hall, in_seq. lia.
Qed.

Lemma length_append (a b : string) :
  String.length (a ++ b) = (String.length a + String.length b)%nat.
Proof. induction a as [| c a IH]; cbn; [reflexivity | now rewrite IH]. Qed.

(** Whatever text the provider sends as the date, the suffix of a line is
    either empty or the eight characters [ (mm/dd)] of a month from 01
    to 12 and a day from 01 to 31: a text that is not a calendar date in
    the form year-month-day never reaches the briefing. *)
Theorem date_suffix_is_empty_or_month_day (latest_date : option string) :
  date_suffix latest_date = ""
  \/ exists m d : Z,
       1 <= m <= 12 /\ 1 <= d <= 31
       /\ date_suffix latest_date = " (" ++ Text.pad2 m ++ "/" ++ Text.pad2 d ++ ")"
       /\ String.length (date_suffix latest_date) = 8%nat.
Proof.
  destruct latest_date as [s |]; [| left; reflexivity].
  destruct (Strptime.strptime_Ymd s) as [[[y m] d] |] eqn:E.
  - right. exists m, d.
    pose proof (strptime_Ymd_range s y m d E) as (Hy & Hm & Hd).
    pose proof (days_in_month_max y m) as Hmax.
    rewrite (date_suffix_parsed s y m d E).
    repeat split; try lia.
    rewrite !length_append, !pad2_length by lia. reflexivity.
  - left. apply date_suffix_unparsed, E.
Qed.

(** ** Process entry and the loop *)

Lemma startup_unconfigured_run (o : oracle) :
  secrets_present o = false ->
  startup o initial
  = (Ok tt,
     mk_world 2 (banner o ++ [Printed "⚠️ 환경변수가 설정되지 않았습니다!"])).
Proof.
  unfold secrets_present. intros Hs.
  unfold startup. do 11 step. cbn [in_schema schema]. rewrite Hs.
  unfold print, banner, business_day, korean, log, ask, initial.
  cbn [tick trace app]. reflexivity.
Qed.

(** When one of the three secrets is absent or empty, the startup block
    sends nothing and fetches nothing: after the configuration report it
    prints the warning and goes on. *)
Theorem startup_without_secrets_makes_no_request (o : oracle) :
  secrets_present o = false ->
  exists w' : world,
    startup o initial = (Ok tt, w')
    /\ gets w' = []
    /\ posts w' = []
    /\ trace w' = (banner o ++ [Printed "⚠️ 환경변수가 설정되지 않았습니다!"])%list.
Proof.
  intros Hs. eexists. split; [apply startup_unconfigured_run, Hs |].
  repeat split; reflexivity.
Qed.

Lemma startup_without_secrets_makes_no_request_witness :
  exists w' : world,
    startup (unconfigured wed_0730) initial = (Ok tt, w')
    /\ gets w' = []
    /\ posts w' = [].
Proof.
  destruct (startup_without_secrets_makes_no_request (unconfigured wed_0730))
    as (w' & Hrun & Hg & Hp & _).
  - reflexivity.
  - exists w'. split; [exact Hrun |]. split; [exact Hg | exact Hp].
Defined.

Lemma startup_total (o : oracle) :
  exists w' : world, startup o initial = (Ok tt, w') /\ sleeps w' = [].
Proof.
  destruct (secrets_present o) eqn:Hs.
  - exists (after_cycle o (before_first_cycle o)).
    split; [apply startup_run, Hs |].
    rewrite after_cycle_sleeps. reflexivity.
  - eexists. split; [apply startup_unconfigured_run, Hs | reflexivity].
Qed.

(** In a world of the schema the process gets through its startup and
    through every round of the loop. *)
Lemma main_in_schema (wakes : nat) (o : oracle) :
  exists w' : world,
    main wakes o initial = (Ok tt, w')
    /\ List.length (sleeps w') = wakes.
Proof.
  destruct (startup_total o) as (w1 & Hstart & Hs1).
  unfold main. erewrite bind_run by exact Hstart.
  erewrite bind_run by reflexivity.
  destruct (scheduler_run wakes o
              (log (Printed "⏰ 스케줄러 시작... (매일 오전 7:30 브리핑)") w1))
    as (w' & Hrun & Hs).
  exists w'. split; [exact Hrun |].
  rewrite Hs. unfold sleeps, log in *. cbn [trace].
  rewrite filter_app, Hs1. reflexivity.
Qed.

(** *** From a provider to the world of the schema that answers like it *)

Lemma agrees_ret {A : Type} (a : A) (p : provider) (o : oracle) :
  agrees (ret a) p o.
Proof. intros w. reflexivity. Qed.

Lemma agrees_print (line : string) (p : provider) (o : oracle) :
  agrees (print line) p o.
Proof. intros w. reflexivity. Qed.

Lemma agrees_sleep (seconds : Z) (p : provider) (o : oracle) :
  agrees (time_sleep seconds) p o.
Proof. intros w. reflexivity. Qed.

Lemma agrees_now (tz : Z) (p : provider) :
  agrees (datetime_now tz) p (repaired p).
Proof. intros w. reflexivity. Qed.

Lemma agrees_getenv_token (p : provider) :
  agrees (getenv BOT_TOKEN) p (repaired p).
Proof. intros w. reflexivity. Qed.

Lemma agrees_getenv_key (p : provider) :
  agrees (getenv FRED_API_KEY) p (repaired p).
Proof. intros w. reflexivity. Qed.

Lemma agrees_getenv_chat (p : provider) :
  agrees (getenv CHAT_ID) p (repaired p).
Proof. intros w. reflexivity. Qed.

Lemma agrees_post (url message : string) (p : provider) :
  agrees (requests_post url message) p (repaired p).
Proof. intros w. reflexivity. Qed.

Lemma agrees_bind {A B : Type} (m : M A) (k : A -> M B) (p : provider) (o : oracle) :
  agrees m p o -> (forall a, agrees (k a) p o) -> agrees (bind m k) p o.
Proof.
  intros Hm Hk w. unfold bind. rewrite (Hm w).
  destruct (m o w) as [[a | e] w']; [apply Hk | reflexivity].
Qed.

Lemma agrees_try_except {A : Type} (m : M A) (handler : string -> M A)
    (p : provider) (o : oracle) :
  agrees m p o -> (forall e, agrees (handler e) p o) -> agrees (try_except m handler) p o.
Proof.
  intros Hm Hh w. unfold try_except. rewrite (Hm w).
  destruct (m o w) as [[a | e] w']; [reflexivity | apply Hh].
Qed.

Ltac agree_step :=
  cbv beta zeta;
  first
    [ assumption
    | apply agrees_ret | apply agrees_print | apply agrees_sleep
    | apply agrees_now | apply agrees_post
    | apply agrees_getenv_token | apply agrees_getenv_key | apply agrees_getenv_chat
    | apply agrees_bind; [| intros ?]
    | apply agrees_try_except; [| intros ?]
    | match goal with
      | |- agrees (if ?c then _ else _) _ _ => destruct c
      | |- agrees (match ?d with [] => _ | _ :: _ => _ end) _ _ => destruct d
      end ].

Ltac agree := repeat agree_step.

Lemma should_send_briefing_repaired (p : provider) :
  agrees should_send_briefing p (repaired p).
Proof. unfold should_send_briefing, is_business_day, get_korean_time. agree. Qed.

Lemma send_telegram_message_repaired (message : string) (p : provider) :
  agrees (send_telegram_message message) p (repaired p).
Proof. unfold send_telegram_message. agree. Qed.

Lemma send_economic_briefing_repaired (p : provider) :
  (forall q, breaking p q = false) ->
  agrees send_economic_briefing p (repaired p).
Proof.
  intros Hok.
  assert (Hfetch : agrees get_latest_indicators p (repaired p))
    by (intros w; apply get_latest_indicators_repaired; intros q _; apply Hok).
  pose proof (should_send_briefing_repaired p) as Hgate.
  assert (Hsend : forall m, agrees (send_telegram_message m) p (repaired p))
    by (intros m; apply send_telegram_message_repaired).
  unfold send_economic_briefing, format_economic_briefing, get_korean_time. agree.
Qed.

Lemma startup_repaired (p : provider) :
  (forall q, breaking p q = false) ->
  agrees startup p (repaired p).
Proof.
  intros Hok.
  pose proof (send_economic_briefing_repaired p Hok) as Hcycle.
  assert (Hsend : forall m, agrees (send_telegram_message m) p (repaired p))
    by (intros m; apply send_telegram_message_repaired).
  unfold startup, send_startup_message, is_business_day, get_korean_time. agree.
Qed.

Lemma run_jobs_repaired (due : nat) (job : M unit) (p : provider) (o : oracle) :
  agrees job p o -> agrees (run_jobs due job) p o.
Proof. intros Hjob. induction due as [| k IH]; cbn [run_jobs]; agree. Qed.

Lemma scheduler_repaired (wakes : nat) (p : provider) :
  (forall q, breaking p q = false) ->
  agrees (scheduler wakes) p (repaired p).
Proof.
  intros Hok.
  assert (Hpending : agrees run_pending p (repaired p)).
  { intros w. unfold run_pending. cbn [in_schema schema repaired pending].
    apply run_jobs_repaired, send_economic_briefing_repaired, Hok. }
  induction wakes as [| k IH]; cbn [scheduler]; agree.
Qed.

Lemma main_repaired (wakes : nat) (p : provider) :
  (forall q, breaking p q = false) ->
  agrees (main wakes) p (repaired p).
Proof.
  intros Hok.
  pose proof (startup_repaired p Hok) as Hstart.
  pose proof (scheduler_repaired wakes p Hok) as Hloop.
  unfold main. agree.
Qed.

(** Whatever the environment, the clock, the provider and the chat do,
    as long as the provider never answers with a value on which lines
    108 to 116 raise, the process gets through its startup and through
    every round of the loop: no exception leaves [main], and after
    [wakes] rounds it has slept [wakes] times.  Failed requests, bodies
    that are not JSON, empty lists and nulls are all allowed. *)
Theorem main_completes_every_round (wakes : nat) (p : provider) :
  (forall q, breaking p q = false) ->
  exists w' : world,
    main wakes p initial = (Ok tt, w')
    /\ List.length (sleeps w') = wakes.
Proof.
  intros Hok. rewrite (main_repaired wakes p Hok initial).
  exact (main_in_schema wakes (repaired p)).
Qed.

(** The provider answers the GDP with one observation followed by a
    null; the process gets through two rounds. *)
Lemma main_completes_every_round_witness :
  exists w' : world,
    main 2 (answering wed_0730 "GDPC1" (PyList [Object (obs "23400.1" "2024-04-01"); Falsy]))
      initial = (Ok tt, w')
    /\ List.length (sleeps w') = 2%nat.
Proof.
  apply (main_completes_every_round 2
           (answering wed_0730 "GDPC1" (PyList [Object (obs "23400.1" "2024-04-01"); Falsy]))).
  intros q. unfold breaking, answering. cbn [odd].
  destruct (String.eqb (snd q) "GDPC1"); reflexivity.
Defined.

(** *** An answer that ends the process *)

Lemma bind_raise {A B : Type} (m : M A) (k : A -> M B) (p : provider) (w w' : world)
    (e : string) :
  m p w = (Raise e, w') -> bind m k p w = (Raise e, w').
Proof. intros H. unfold bind. now rewrite H. Qed.

Lemma bind_ok {A B : Type} (m : M A) (k : A -> M B) (p : provider) (w w' : world) (a : A) :
  m p w = (Ok a, w') -> bind m k p w = k a p w'.
Proof. intros H. unfold bind. now rewrite H. Qed.

(** An open gate has read the clock twice and printed nothing. *)
Lemma open_gate_world (p : provider) (w : world) :
  fst (should_send_briefing p w) = Ok true ->
  should_send_briefing p w = (Ok true, ask (ask w)).
Proof.
  rewrite (should_send_briefing_repaired p w), should_send_briefing_run.
  destruct (Time.weekday _ <? 5); cbn [fst]; intros H; [| discriminate].
  apply (f_equal2 pair); [exact H | reflexivity].
Qed.

(** A call of [send_economic_briefing] whose gate is open and whose
    fetch meets an answer on which lines 108 to 116 raise. *)
Lemma cycle_breaks (p : provider) (w : world) (q : nat * string) :
  fst (should_send_briefing p (ask w)) = Ok true ->
  In q (requests (3 + tick w)) -> breaking p q = true ->
  exists (e : string) (w' : world),
    send_economic_briefing p w = (Raise e, w')
    /\ posts w' = posts w
    /\ sleeps w' = sleeps w.
Proof.
  intros Hgate Hin Hq.
  destruct (first_such (breaking p) (requests (3 + tick w)) q Hin Hq)
    as (before & first & after & Hsplit & Hfirst & Hbefore).
  set (w3 := log (Printed ("📊 경제지표 브리핑 준비 중... "
                            ++ Time.strftime_HMS
                                 (Time.fromtimestamp (clock (schema p) (tick w)) Time.KST)))
               (ask (ask (ask w)))).
  destruct (collect_breaks ECONOMIC_INDICATORS [] p w3 before first after Hsplit
              Hbefore Hfirst) as (e & w' & Hrun & _ & Hp & Hs).
  exists e, w'. split; [| split; [rewrite Hp | rewrite Hs]; unfold posts, sleeps, w3, log, ask;
                          cbn [trace]; rewrite filter_app; cbn [filter is_post is_sleep];
                          apply app_nil_r].
  unfold send_economic_briefing.
  erewrite bind_ok by reflexivity.
  erewrite bind_ok by (apply open_gate_world, Hgate).
  cbn [negb].
  erewrite bind_ok by reflexivity.
  apply bind_raise. exact Hrun.
Qed.

(** An answer on which lines 108 to 116 raise ends the process: when a
    job is due, its gate is open and one of its five requests gets such
    an answer, the exception leaves [send_economic_briefing],
    [run_pending] and the loop.  Nothing is posted, and the process does
    not sleep again, however many rounds were still to come. *)
Theorem malformed_answer_ends_the_loop (wakes : nat) (p : provider) (w : world)
    (q : nat * string) :
  pending (schema p) (tick w) <> 0%nat ->
  fst (should_send_briefing p (ask (ask w))) = Ok true ->
  In q (requests (4 + tick w)) -> breaking p q = true ->
  exists (e : string) (w' : world),
    scheduler (S wakes) p w = (Raise e, w')
    /\ posts w' = posts w
    /\ sleeps w' = sleeps w.
Proof.
  intros Hdue Hgate Hin Hq.
  destruct (cycle_breaks p (ask w) q Hgate Hin Hq) as (e & w' & Hrun & Hp & Hs).
  exists e, w'. split; [| split; assumption].
  cbn [scheduler]. apply bind_raise.
  unfold run_pending.
  destruct (pending (schema p) (tick w)) as [| k]; [contradiction |].
  cbn [run_jobs]. apply bind_raise. exact Hrun.
Qed.

(** The provider answers [{"observations": [null]}] for the unemployment
    rate on a Wednesday at 07:30: the first round of the loop raises. *)
Lemma malformed_answer_ends_the_loop_witness :
  exists (e : string) (w' : world),
    scheduler 3 (answering wed_0730 "UNRATE" (PyList [Falsy])) initial = (Raise e, w')
    /\ posts w' = []
    /\ sleeps w' = [].
Proof.
  apply (malformed_answer_ends_the_loop 2
           (answering wed_0730 "UNRATE" (PyList [Falsy])) initial (4%nat, "UNRATE")).
  - cbn. discriminate.
  - vm_compute. reflexivity.
  - left. reflexivity.
  - reflexivity.
Defined.

(** The weekday label of the startup message is always one of the seven
    names: the index [weekday()] never leaves the list. *)
Theorem weekday_name_is_one_of_seven (d : Time.datetime) :
  In (weekday_name (Time.weekday d)) ["월"; "화"; "수"; "목"; "금"; "토"; "일"].
Proof.
  pose proof (weekday_range d) as H.
  assert (E : Time.weekday d = 0 \/ Time.weekday d = 1 \/ Time.weekday d = 2
              \/ Time.weekday d = 3 \/ Time.weekday d = 4 \/ Time.weekday d = 5
              \/ Time.weekday d = 6) by lia.
  repeat (destruct E as [E | E]; [rewrite E; cbn; tauto |]).
  rewrite E. cbn. tauto.
Qed.

(** ** Lines for unusual entries *)

(** An entry that is given a line keeps it when a value does not parse:
    the latest value is printed as it came, and the change reads as not
    available whenever the latest or the previous value is absent, is the
    missing-value token or is refused by [float]. *)
Theorem unparsable_values_read_not_available (d : dict) (k : string) (s : snapshot) :
  NoDup (keys d) -> In (k, s) d -> shown s = true ->
  numeric (latest_value s) = None \/ numeric (previous_value s) = None ->
  reading s = ": " ++ Text.show (latest_value s) ++ units (info s) ++ " 📊 N/A"
  /\ (importance (info s) = "critical" ->
      In (k, nl ++ "- <b>" ++ name (info s) ++ "</b>" ++ reading s
               ++ date_suffix (latest_date s)) (body_lines d))
  /\ (importance (info s) = "important" ->
      In (k, nl ++ "- " ++ name (info s) ++ reading s) (body_lines d)).
Proof.
  intros Hnd Hin Hshown Hnum.
  assert (Hc : calculate_change (latest_value s) (previous_value s) = None).
  { rewrite calculate_change_numeric.
    destruct Hnum as [Hn | Hn]; rewrite Hn; [reflexivity |].
    destruct (numeric (latest_value s)); reflexivity. }
  split; [unfold reading; now rewrite Hc |].
  split; intros Himp; apply (body_line_of d k s _ Hnd Hin).
  - left. split; [exact Himp |]. unfold critical_line, critical_head.
    rewrite Hshown, !append_assoc. reflexivity.
  - right. split; [exact Himp |]. unfold important_line, important_head.
    now rewrite Hshown.
Qed.

Lemma unparsable_values_read_not_available_witness :
  In ("GDPC1", nl ++ "- GDP: n/a% 📊 N/A")
    (body_lines [("GDPC1", snap "GDPC1" (obs "n/a" "2024-04-01") (obs "23400.1" "2024-01-01"))]).
Proof.
  destruct (unparsable_values_read_not_available
              [("GDPC1", snap "GDPC1" (obs "n/a" "2024-04-01") (obs "23400.1" "2024-01-01"))]
              "GDPC1"
              (snap "GDPC1" (obs "n/a" "2024-04-01") (obs "23400.1" "2024-01-01")))
    as (_ & _ & Himportant).
  - cbn. solve_nodup.
  - left. reflexivity.
  - reflexivity.
  - left. vm_compute. reflexivity.
  - exact (Himportant eq_refl).
Defined.

(** An entry whose tier is neither critical nor important is left out of
    both groups: no line of the briefing is for its series. *)
Theorem unknown_tier_is_never_rendered (d : dict) (k : string) (s : snapshot) :
  NoDup (keys d) -> In (k, s) d ->
  importance (info s) <> "critical" -> importance (info s) <> "important" ->
  ~ In k (map fst (body_lines d)).
Proof.
  intros Hnd Hin Hc Hi H.
  apply in_map_iff in H. destruct H as ([k' l] & Hk & Hl). cbn in Hk. subst k'.
  apply (body_line_of d k s l Hnd Hin) in Hl. tauto.
Qed.

Lemma unknown_tier_is_never_rendered_witness :
  ~ In "DGS10"
      (map fst (body_lines
         [("DGS10", mk_snapshot (mk_indicator "10Y" "%" "minor" "")
                      (Some "4.2") (Some "2024-08-01") (Some "4.1") None)])).
Proof.
  apply (unknown_tier_is_never_rendered
           [("DGS10", mk_snapshot (mk_indicator "10Y" "%" "minor" "")
                        (Some "4.2") (Some "2024-08-01") (Some "4.1") None)]
           "DGS10"
           (mk_snapshot (mk_indicator "10Y" "%" "minor" "")
              (Some "4.2") (Some "2024-08-01") (Some "4.1") None)).
  - cbn. solve_nodup.
  - left. reflexivity.
  - cbn. discriminate.
  - cbn. discriminate.
Defined.
